(** * Error pipeline of the Express starter: a shallow embedding

    The development follows the TypeScript sources file by file:

    - [common/enums/error-code.enum.ts]   the error-code enumeration
    - [common/utils/get-env.ts]           [getEnv]
    - [common/utils/app-error.ts]         [AppError] and its eighteen subclasses
    - [middlewares/asyncHandler.middleware.ts]  [asyncHandler]
    - [middlewares/errorHandler.middleware.ts]  [errorHandler]
    - [middlewares/notFound.middleware.ts]      [notFoundHandler]
    - [common/utils/process-handlers.ts]  the process-level listeners

    JavaScript numbers that the code only compares and copies are integers
    here ([Z]); strings are [string]; [process.env] is a finite map; a value
    of type [unknown] is a [JsValue]; an optional argument or property is an
    [option]. *)

From stdpp Require Import base numbers strings list gmap.
From Stdlib Require Import DecimalString.

Local Open Scope string_scope.
Local Open Scope Z_scope.
Local Set Warnings "-register-all".

(** ** JavaScript values *)

(** The values that travel through [details?: unknown].  An object is the
    list of its own enumerable properties, in property order. *)
Inductive JsValue : Type :=
  | JUndefined
  | JNull
  | JBool (b : bool)
  | JNum (n : Z)
  | JStr (s : string)
  | JArr (items : list JsValue)
  | JObj (props : list (string * JsValue)).

(** [ToBoolean]: what [if (v)] and [v || w] test. *)
Definition truthy (v : JsValue) : bool :=
  match v with
  | JUndefined | JNull => false
  | JBool b => b
  | JNum n => negb (n =? 0)
  | JStr s => negb (String.eqb s "")
  | JArr _ | JObj _ => true
  end.

(** [a ?? b] on a possibly-undefined value. *)
Definition nullish_or {A : Type} (a b : option A) : option A :=
  match a with
  | Some x => Some x
  | None => b
  end.

(** [s || t] on strings: the empty string is falsy. *)
Definition str_or (s t : string) : string :=
  if String.eqb s "" then t else s.

(** Property lookup and assignment on an object's property list.  An
    assignment to an existing key keeps the key's position. *)
Fixpoint get_prop (k : string) (ps : list (string * JsValue)) : option JsValue :=
  match ps with
  | [] => None
  | (k', v) :: ps' => if String.eqb k k' then Some v else get_prop k ps'
  end.

Fixpoint set_prop (k : string) (v : JsValue) (ps : list (string * JsValue))
  : list (string * JsValue) :=
  match ps with
  | [] => [(k, v)]
  | (k', v') :: ps' =>
      if String.eqb k k' then (k', v) :: ps' else (k', v') :: set_prop k v ps'
  end.

Definition index_key (i : nat) : string :=
  NilEmpty.string_of_uint (Nat.to_uint i).

Fixpoint chars (s : string) : list JsValue :=
  match s with
  | EmptyString => []
  | String c s' => JStr (String c EmptyString) :: chars s'
  end.

Definition indexed (xs : list JsValue) : list (string * JsValue) :=
  imap (fun i x => (index_key i, x)) xs.

(** The properties copied by an object spread [{...v}]: nothing for
    [undefined], [null], booleans and numbers; the indexed elements of an
    array or string; the own properties of an object. *)
Definition spread (v : JsValue) : list (string * JsValue) :=
  match v with
  | JUndefined | JNull | JBool _ | JNum _ => []
  | JStr s => indexed (chars s)
  | JArr xs => indexed xs
  | JObj ps => ps
  end.

(** [Object.keys] of a record. *)
Definition Object_keys (ps : list (string * JsValue)) : list string :=
  map fst ps.

(** ** common/enums/error-code.enum.ts *)

Inductive ErrorCodeEnumType : Type :=
  (* Client Errors (4xx) *)
  | USR_400 | USR_404 | USR_405 | USR_409 | USR_422
  (* Authentication & Authorization Errors *)
  | AUTH_401 | AUTH_403 | AUTH_USER_NOT_FOUND | AUTH_EMAIL_ALREADY_EXISTS
  | AUTH_INVALID_TOKEN | AUTH_TOKEN_NOT_FOUND | AUTH_TOKEN_EXPIRED
  | AUTH_INVALID_CREDENTIALS | AUTH_ACCOUNT_LOCKED | AUTH_ACCOUNT_DISABLED
  | AUTH_INSUFFICIENT_PERMISSIONS
  (* Validation Errors *)
  | VAL_400 | VAL_REQUIRED_FIELD | VAL_INVALID_FORMAT | VAL_INVALID_TYPE
  | VAL_OUT_OF_RANGE | VAL_DUPLICATE_VALUE
  (* Rate Limiting *)
  | RATE_429 | RATE_LIMIT_EXCEEDED
  (* Database Errors *)
  | DB_500 | DB_CONNECTION_ERROR | DB_QUERY_ERROR | DB_TRANSACTION_ERROR
  | DB_DUPLICATE_KEY | DB_VALIDATION_ERROR | DB_NOT_FOUND
  (* External/Third-party API Errors *)
  | EXT_502 | EXT_503 | EXT_504 | EXT_API_ERROR | EXT_SERVICE_UNAVAILABLE
  | EXT_TIMEOUT
  (* Server Errors (5xx) *)
  | SRV_500 | SRV_501 | SRV_INTERNAL_ERROR | SRV_UNHANDLED_ERROR
  (* File Upload Errors *)
  | FILE_UPLOAD_ERROR | FILE_TOO_LARGE | FILE_INVALID_TYPE | FILE_UPLOAD_FAILED.

(** [ErrorCodeEnum.K]: every member's value is its own key. *)
Definition ErrorCodeEnum (c : ErrorCodeEnumType) : string :=
  match c with
  | USR_400 => "USR_400" | USR_404 => "USR_404" | USR_405 => "USR_405"
  | USR_409 => "USR_409" | USR_422 => "USR_422"
  | AUTH_401 => "AUTH_401" | AUTH_403 => "AUTH_403"
  | AUTH_USER_NOT_FOUND => "AUTH_USER_NOT_FOUND"
  | AUTH_EMAIL_ALREADY_EXISTS => "AUTH_EMAIL_ALREADY_EXISTS"
  | AUTH_INVALID_TOKEN => "AUTH_INVALID_TOKEN"
  | AUTH_TOKEN_NOT_FOUND => "AUTH_TOKEN_NOT_FOUND"
  | AUTH_TOKEN_EXPIRED => "AUTH_TOKEN_EXPIRED"
  | AUTH_INVALID_CREDENTIALS => "AUTH_INVALID_CREDENTIALS"
  | AUTH_ACCOUNT_LOCKED => "AUTH_ACCOUNT_LOCKED"
  | AUTH_ACCOUNT_DISABLED => "AUTH_ACCOUNT_DISABLED"
  | AUTH_INSUFFICIENT_PERMISSIONS => "AUTH_INSUFFICIENT_PERMISSIONS"
  | VAL_400 => "VAL_400" | VAL_REQUIRED_FIELD => "VAL_REQUIRED_FIELD"
  | VAL_INVALID_FORMAT => "VAL_INVALID_FORMAT"
  | VAL_INVALID_TYPE => "VAL_INVALID_TYPE"
  | VAL_OUT_OF_RANGE => "VAL_OUT_OF_RANGE"
  | VAL_DUPLICATE_VALUE => "VAL_DUPLICATE_VALUE"
  | RATE_429 => "RATE_429" | RATE_LIMIT_EXCEEDED => "RATE_LIMIT_EXCEEDED"
  | DB_500 => "DB_500" | DB_CONNECTION_ERROR => "DB_CONNECTION_ERROR"
  | DB_QUERY_ERROR => "DB_QUERY_ERROR"
  | DB_TRANSACTION_ERROR => "DB_TRANSACTION_ERROR"
  | DB_DUPLICATE_KEY => "DB_DUPLICATE_KEY"
  | DB_VALIDATION_ERROR => "DB_VALIDATION_ERROR"
  | DB_NOT_FOUND => "DB_NOT_FOUND"
  | EXT_502 => "EXT_502" | EXT_503 => "EXT_503" | EXT_504 => "EXT_504"
  | EXT_API_ERROR => "EXT_API_ERROR"
  | EXT_SERVICE_UNAVAILABLE => "EXT_SERVICE_UNAVAILABLE"
  | EXT_TIMEOUT => "EXT_TIMEOUT"
  | SRV_500 => "SRV_500" | SRV_501 => "SRV_501"
  | SRV_INTERNAL_ERROR => "SRV_INTERNAL_ERROR"
  | SRV_UNHANDLED_ERROR => "SRV_UNHANDLED_ERROR"
  | FILE_UPLOAD_ERROR => "FILE_UPLOAD_ERROR"
  | FILE_TOO_LARGE => "FILE_TOO_LARGE"
  | FILE_INVALID_TYPE => "FILE_INVALID_TYPE"
  | FILE_UPLOAD_FAILED => "FILE_UPLOAD_FAILED"
  end.

(** The specification's taxonomy names.  The design document refers to the
    codes by descriptive, prefix-grouped identifiers instead of the enum
    keys; this is the correspondence for the codes it names (the default
    table of the fault hierarchy and the cascade's results), [None] for the
    members it does not mention.  It is a renaming used to read the
    statements below in the document's vocabulary; no code computes it. *)
Definition taxonomy_name (c : ErrorCodeEnumType) : option string :=
  match c with
  | USR_400 => Some "client-bad-request"
  | USR_404 => Some "client-not-found"
  | USR_405 => Some "client-method-not-allowed"
  | USR_409 => Some "client-conflict"
  | USR_422 => Some "client-unprocessable"
  | AUTH_401 => Some "auth-unauthorized"
  | AUTH_403 => Some "auth-forbidden"
  | AUTH_INVALID_TOKEN => Some "auth-invalid-token"
  | VAL_400 => Some "validation-failed"
  | VAL_INVALID_FORMAT => Some "validation-invalid-format"
  | RATE_429 => Some "rate-limit-exceeded"
  | DB_500 => Some "storage-error"
  | DB_CONNECTION_ERROR => Some "storage-connection-error"
  | DB_DUPLICATE_KEY => Some "storage-duplicate-key"
  | DB_VALIDATION_ERROR => Some "validation-db-error"
  | EXT_API_ERROR => Some "external-api-error"
  | EXT_503 => Some "external-unavailable"
  | EXT_SERVICE_UNAVAILABLE => Some "external-unavailable"
  | EXT_504 => Some "external-timeout"
  | SRV_500 => Some "server-internal-error"
  | SRV_501 => Some "server-not-implemented"
  | FILE_UPLOAD_ERROR => Some "upload-error"
  | _ => None
  end.

(** ** configs/http.config.ts *)

(** Modelled from the spec: [configs/http.config.ts] is not among the
    sources; only its uses are ([HTTPSTATUS.BAD_REQUEST], ...).  Each
    constant used by the error pipeline gets the status the specification's
    default table and cascade give for it, which is the status the constant
    is named after; [OK], used by the application's routes, is 200.
    [HttpStatusCodeType] is the type of these values, a number. *)
Module HTTPSTATUS.
Definition OK : Z := 200.
Definition BAD_REQUEST : Z := 400.
Definition UNAUTHORIZED : Z := 401.
Definition FORBIDDEN : Z := 403.
Definition NOT_FOUND : Z := 404.
Definition METHOD_NOT_ALLOWED : Z := 405.
Definition CONFLICT : Z := 409.
Definition UNPROCESSABLE_ENTITY : Z := 422.
Definition TOO_MANY_REQUESTS : Z := 429.
Definition INTERNAL_SERVER_ERROR : Z := 500.
Definition NOT_IMPLEMENTED : Z := 501.
Definition BAD_GATEWAY : Z := 502.
Definition SERVICE_UNAVAILABLE : Z := 503.
Definition GATEWAY_TIMEOUT : Z := 504.
End HTTPSTATUS.

Definition HttpStatusCodeType : Type := Z.

(** ** common/utils/get-env.ts *)

(** A call either returns or throws [new Error(message)]. *)
Inductive Outcome (A : Type) : Type :=
  | Returned (a : A)
  | Threw (message : string).
Arguments Returned {A} a.
Arguments Threw {A} message.

(** [`${val}`] for a [string | undefined]. *)
Definition show_opt (v : option string) : string :=
  match v with
  | Some s => s
  | None => "undefined"
  end.

(** [getEnv(key, defaultValue?)] reads [process.env]; the first component
    of the result is what it writes with [console.log]. *)
Definition getEnv (process_env : gmap string string)
    (key : string) (defaultValue : option string)
  : list string * Outcome string :=
  let val := nullish_or (process_env !! key) defaultValue in
  let console :=
    if negb (bool_decide (process_env !! "NODE_ENV" = Some "production"))
    then ["Env " ++ key ++ ": " ++ show_opt val]
    else [] in
  match val with
  | Some v =>
      if String.eqb v ""
      then (console, Threw ("Missing env variable: " ++ key))
      else (console, Returned v)
  | None => (console, Threw ("Missing env variable: " ++ key))
  end.

(** ** configs/env.config.ts *)

(** [Env.NODE_ENV = getEnv("NODE_ENV", "development")], the one entry of
    [Env] the error pipeline reads. *)
Definition Env_NODE_ENV (process_env : gmap string string) : Outcome string :=
  (getEnv process_env "NODE_ENV" (Some "development")).2.

(** ** common/utils/app-error.ts *)

(** One entry of a Mongoose [ValidationError]'s [errors]. *)
Record ValidatorError : Type := {
  ve_path : string;
  ve_message : string
}.

(** The fields [AppError] adds to [Error]. *)
Record AppErrorFields : Type := {
  isOperational : bool;
  timestamp : string;
  statusCode : HttpStatusCodeType;
  errorCode : ErrorCodeEnumType;
  details : JsValue
}.

Inductive ErrorClass : Type :=
  | InstAppError (fields : AppErrorFields)
  | InstValidationError (errors : list (string * ValidatorError))
  | InstCastError (path : string) (value : JsValue)
  | InstSyntaxError
  | InstError.

(** An [Error] object, as far as the pipeline looks at it: its class, the
    three standard properties, and whatever other properties it carries
    ([code], [statusCode], [body], [keyPattern], ...). *)
Record ErrorObject : Type := {
  cls : ErrorClass;
  name : string;
  message : string;
  stack : option string;
  extra : list (string * JsValue)
}.

(** [new AppError(message, statusCode?, errorCode?, details?)], run as the
    super-constructor of the class called [className]; [now] is the clock
    reading and [trace] what [Error.captureStackTrace] records. *)
Definition new_AppError (now trace className : string) (message : string)
    (statusCode : option HttpStatusCodeType)
    (errorCode : option ErrorCodeEnumType) (details : JsValue) : ErrorObject :=
  {| cls := InstAppError
       {| isOperational := true;
          timestamp := now;
          statusCode := default HTTPSTATUS.INTERNAL_SERVER_ERROR statusCode;
          errorCode := default SRV_500 errorCode;
          details := details |};
     name := className;
     message := message;
     stack := Some trace;
     extra := [] |}.

Section Exceptions.
Variables now trace : string.

(** The shape shared by the eighteen subclasses: default message, fixed
    status, default error code. *)
Definition subclass (className defaultMessage : string)
    (status : HttpStatusCodeType) (defaultCode : ErrorCodeEnumType)
    (message : option string) (errorCode : option ErrorCodeEnumType)
    (details : JsValue) : ErrorObject :=
  new_AppError now trace className (default defaultMessage message)
    (Some status) (Some (default defaultCode errorCode)) details.

(* ==================== Client Errors (4xx) ==================== *)

Definition BadRequestException :=
  subclass "BadRequestException" "The request is invalid or malformed"
    HTTPSTATUS.BAD_REQUEST USR_400.

Definition UnauthorizedException :=
  subclass "UnauthorizedException"
    "Authentication required. Please provide valid credentials"
    HTTPSTATUS.UNAUTHORIZED AUTH_401.

Definition ForbiddenException :=
  subclass "ForbiddenException"
    "You do not have permission to access this resource"
    HTTPSTATUS.FORBIDDEN AUTH_403.

Definition NotFoundException :=
  subclass "NotFoundException" "The requested resource was not found"
    HTTPSTATUS.NOT_FOUND USR_404.

Definition MethodNotAllowedException :=
  subclass "MethodNotAllowedException"
    "The HTTP method is not allowed for this endpoint"
    HTTPSTATUS.METHOD_NOT_ALLOWED USR_405.

Definition ConflictException :=
  subclass "ConflictException"
    "The request conflicts with the current state of the resource"
    HTTPSTATUS.CONFLICT USR_409.

Definition UnprocessableEntityException :=
  subclass "UnprocessableEntityException"
    "The request is well-formed but contains semantic errors"
    HTTPSTATUS.UNPROCESSABLE_ENTITY USR_422.

Definition TooManyRequestsException :=
  subclass "TooManyRequestsException"
    "Too many requests. Please try again later"
    HTTPSTATUS.TOO_MANY_REQUESTS RATE_429.

(* ==================== Validation Errors ==================== *)

Definition ValidationException :=
  subclass "ValidationException"
    "Validation failed. Please check your input"
    HTTPSTATUS.BAD_REQUEST VAL_400.

(* ============ Authentication & Authorization Errors ============ *)

Definition AuthenticationException :=
  subclass "AuthenticationException"
    "Authentication failed. Please check your credentials"
    HTTPSTATUS.UNAUTHORIZED AUTH_401.

Definition AuthorizationException :=
  subclass "AuthorizationException"
    "You do not have permission to perform this action"
    HTTPSTATUS.FORBIDDEN AUTH_403.

(* ==================== Database Errors ==================== *)

Definition DatabaseException :=
  subclass "DatabaseException"
    "A database error occurred. Please try again later"
    HTTPSTATUS.INTERNAL_SERVER_ERROR DB_500.

Definition DatabaseConnectionException :=
  subclass "DatabaseConnectionException"
    "Unable to connect to the database. Please try again later"
    HTTPSTATUS.SERVICE_UNAVAILABLE DB_CONNECTION_ERROR.

(* ============ External/Third-party API Errors ============ *)

Definition ExternalServiceException :=
  subclass "ExternalServiceException"
    "An external service error occurred. Please try again later"
    HTTPSTATUS.BAD_GATEWAY EXT_API_ERROR.

Definition ServiceUnavailableException :=
  subclass "ServiceUnavailableException"
    "The service is temporarily unavailable. Please try again later"
    HTTPSTATUS.SERVICE_UNAVAILABLE EXT_503.

Definition GatewayTimeoutException :=
  subclass "GatewayTimeoutException"
    "The request timed out. Please try again later"
    HTTPSTATUS.GATEWAY_TIMEOUT EXT_504.

(* ==================== Server Errors (5xx) ==================== *)

Definition InternalServerException :=
  subclass "InternalServerException"
    "An internal server error occurred. Please try again later"
    HTTPSTATUS.INTERNAL_SERVER_ERROR SRV_500.

Definition NotImplementedException :=
  subclass "NotImplementedException" "This feature is not yet implemented"
    HTTPSTATUS.NOT_IMPLEMENTED SRV_501.

(** The eighteen exported subclasses, to quantify over them. *)
Inductive Variant : Type :=
  | BadRequest | Unauthorized | Forbidden | NotFound | MethodNotAllowed
  | Conflict | UnprocessableEntity | TooManyRequests | Validation
  | Authentication | Authorization | Database | DatabaseConnection
  | ExternalService | ServiceUnavailable | GatewayTimeout | InternalServer
  | NotImplemented.

(** [new V(message?, errorCode?, details?)] for the class of variant [V]. *)
Definition construct (v : Variant)
  : option string -> option ErrorCodeEnumType -> JsValue -> ErrorObject :=
  match v with
  | BadRequest => BadRequestException
  | Unauthorized => UnauthorizedException
  | Forbidden => ForbiddenException
  | NotFound => NotFoundException
  | MethodNotAllowed => MethodNotAllowedException
  | Conflict => ConflictException
  | UnprocessableEntity => UnprocessableEntityException
  | TooManyRequests => TooManyRequestsException
  | Validation => ValidationException
  | Authentication => AuthenticationException
  | Authorization => AuthorizationException
  | Database => DatabaseException
  | DatabaseConnection => DatabaseConnectionException
  | ExternalService => ExternalServiceException
  | ServiceUnavailable => ServiceUnavailableException
  | GatewayTimeout => GatewayTimeoutException
  | InternalServer => InternalServerException
  | NotImplemented => NotImplementedException
  end.
End Exceptions.

(** The specification's default table (section 4.1), row by row as the
    document prints it: variant, status, default code by taxonomy name.
    The constructors above are compared with it. *)
Definition spec_default_table (v : Variant) : Z * string :=
  match v with
  | BadRequest => (400, "client-bad-request")
  | Unauthorized => (401, "auth-unauthorized")
  | Forbidden => (403, "auth-forbidden")
  | NotFound => (404, "client-not-found")
  | MethodNotAllowed => (405, "client-method-not-allowed")
  | Conflict => (409, "client-conflict")
  | UnprocessableEntity => (422, "client-unprocessable")
  | TooManyRequests => (429, "rate-limit-exceeded")
  | Validation => (400, "validation-failed")
  | Authentication => (401, "auth-unauthorized")
  | Authorization => (403, "auth-forbidden")
  | Database => (500, "storage-error")
  | DatabaseConnection => (503, "storage-connection-error")
  | ExternalService => (502, "external-api-error")
  | ServiceUnavailable => (503, "external-unavailable")
  | GatewayTimeout => (504, "external-timeout")
  | InternalServer => (500, "server-internal-error")
  | NotImplemented => (501, "server-not-implemented")
  end.

(** The [AppError] view of an error object ([err instanceof AppError]). *)
Definition as_AppError (e : ErrorObject) : option AppErrorFields :=
  match cls e with
  | InstAppError f => Some f
  | _ => None
  end.

(** ** Express: requests, responses, thrown values *)

Record Request : Type := {
  method : string;
  originalUrl : string
}.

(** The canonical body ([interface ErrorResponse]); [details] is
    [JUndefined] when the property is not set. *)
Record ErrorResponse : Type := {
  resp_errorName : string;
  resp_errorCode : string;
  resp_httpStatus : Z;
  resp_message : string;
  resp_details : JsValue;
  resp_timestamp : string;
  resp_path : string
}.

(** What the handlers do to [res]: [res.status(c)] sets the status of the
    reply, [res.json(b)] sends the body. *)
Record Response : Type := {
  res_statusCode : Z;
  res_body : option ErrorResponse
}.

Definition fresh_response : Response :=
  {| res_statusCode := HTTPSTATUS.OK; res_body := None |}.

Definition res_status (c : Z) (res : Response) : Response :=
  {| res_statusCode := c; res_body := res_body res |}.

Definition res_json (b : ErrorResponse) (res : Response) : Response :=
  {| res_statusCode := res_statusCode res; res_body := Some b |}.

(** What reaches an error middleware as [err: unknown]: an [Error] object,
    or any other thrown value.  Of a value that is not an [Error] the
    handler reads nothing but its [name] property ([None] when the value
    has none). *)
Inductive Thrown : Type :=
  | ThrownError (e : ErrorObject)
  | ThrownOther (name : option string).

(** [String(v)], as a template literal converts a value. *)
Fixpoint to_string (v : JsValue) : string :=
  match v with
  | JUndefined => "undefined"
  | JNull => "null"
  | JBool true => "true"
  | JBool false => "false"
  | JNum n => NilZero.string_of_int (Z.to_int n)
  | JStr s => s
  | JArr xs =>
      (fix join (l : list JsValue) : string :=
         match l with
         | [] => ""
         | x :: l' =>
             let sx := match x with
                       | JUndefined | JNull => ""
                       | _ => to_string x
                       end in
             match l' with
             | [] => sx
             | _ :: _ => sx ++ "," ++ join l'
             end
         end) xs
  | JObj _ => "[object Object]"
  end.

(** ** middlewares/errorHandler.middleware.ts *)

(** The ten branches of the handler's [if ... else if] chain, in source
    order. *)
Inductive Rule : Type :=
  | RuleAppError          (* err instanceof AppError *)
  | RuleValidationError   (* mongoose.Error.ValidationError *)
  | RuleCastError         (* mongoose.Error.CastError *)
  | RuleDuplicateKey      (* code === 11000 *)
  | RuleJsonSyntax        (* SyntaxError with a body *)
  | RuleJwt               (* JsonWebTokenError / TokenExpiredError *)
  | RuleRateLimit         (* statusCode === 429 *)
  | RuleUpload            (* multer LIMIT_* codes *)
  | RuleNetwork           (* ECONNREFUSED / ETIMEDOUT / ENOTFOUND *)
  | RuleUnknown.          (* any other Error *)

Definition rule_index (r : Rule) : nat :=
  match r with
  | RuleAppError => 1 | RuleValidationError => 2 | RuleCastError => 3
  | RuleDuplicateKey => 4 | RuleJsonSyntax => 5 | RuleJwt => 6
  | RuleRateLimit => 7 | RuleUpload => 8 | RuleNetwork => 9
  | RuleUnknown => 10
  end%nat.

Definition JsValue_is_num (n : Z) (v : option JsValue) : bool :=
  match v with
  | Some (JNum m) => m =? n
  | _ => false
  end.

Definition JsValue_is_str (s : string) (v : option JsValue) : bool :=
  match v with
  | Some (JStr t) => String.eqb t s
  | _ => false
  end.

(** [err.p] and ["p" in err] for a property the class does not declare;
    [statusCode] is a declared field of [AppError]. *)
Definition code_of (e : ErrorObject) : option JsValue := get_prop "code" (extra e).

Definition statusCode_of (e : ErrorObject) : option JsValue :=
  match cls e with
  | InstAppError f => Some (JNum (statusCode f))
  | _ => get_prop "statusCode" (extra e)
  end.

(** The conditions of the ten branches, each as the source writes it. *)
Definition branch_condition (r : Rule) (err : Thrown) : bool :=
  match err with
  | ThrownOther _ => false
  | ThrownError e =>
      match r with
      | RuleAppError =>
          match cls e with InstAppError _ => true | _ => false end
      | RuleValidationError =>
          match cls e with InstValidationError _ => true | _ => false end
      | RuleCastError =>
          match cls e with InstCastError _ _ => true | _ => false end
      | RuleDuplicateKey => JsValue_is_num 11000 (code_of e)
      | RuleJsonSyntax =>
          match cls e with
          | InstSyntaxError => bool_decide (is_Some (get_prop "body" (extra e)))
          | _ => false
          end
      | RuleJwt =>
          String.eqb (name e) "JsonWebTokenError"
          || String.eqb (name e) "TokenExpiredError"
      | RuleRateLimit =>
          JsValue_is_num HTTPSTATUS.TOO_MANY_REQUESTS (statusCode_of e)
      | RuleUpload =>
          JsValue_is_str "LIMIT_FILE_SIZE" (code_of e)
          || JsValue_is_str "LIMIT_FILE_COUNT" (code_of e)
          || JsValue_is_str "LIMIT_UNEXPECTED_FILE" (code_of e)
      | RuleNetwork =>
          String.eqb (name e) "ECONNREFUSED"
          || String.eqb (name e) "ETIMEDOUT"
          || String.eqb (name e) "ENOTFOUND"
      | RuleUnknown => true
      end
  end.

(** The handler's local variables after the chain; [fired] records the
    branch that ran ([None] when the chain fell through). *)
Record Classified : Type := {
  fired : option Rule;
  c_statusCode : HttpStatusCodeType;
  c_errorCode : string;
  c_message : string;
  c_details : JsValue
}.

Definition validation_details (errors : list (string * ValidatorError)) : JsValue :=
  JArr (map (fun e => JObj [("field", JStr (ve_path e));
                            ("message", JStr (ve_message e))])
            (map snd errors)).

(** The handler's initial [let] bindings: what holds when no branch
    assigns. *)
Definition unassigned : Classified :=
  {| fired := None;
     c_statusCode := HTTPSTATUS.INTERNAL_SERVER_ERROR;
     c_errorCode := ErrorCodeEnum SRV_500;
     c_message := "An unexpected error occurred";
     c_details := JUndefined |}.

Definition classify (err : Thrown) : Classified :=
  match err with
  | ThrownOther _ => unassigned
  | ThrownError e =>
      match cls e with
      (* Handle AppError instances (operational errors) *)
      | InstAppError f =>
          {| fired := Some RuleAppError;
             c_statusCode := statusCode f;
             c_errorCode := ErrorCodeEnum (errorCode f);
             c_message := message e;
             c_details := details f |}
      (* Handle Mongoose validation errors *)
      | InstValidationError errors =>
          {| fired := Some RuleValidationError;
             c_statusCode := HTTPSTATUS.BAD_REQUEST;
             c_errorCode := ErrorCodeEnum DB_VALIDATION_ERROR;
             c_message := "Validation failed";
             c_details := validation_details errors |}
      (* Handle Mongoose cast errors (invalid ObjectId, etc.) *)
      | InstCastError path value =>
          {| fired := Some RuleCastError;
             c_statusCode := HTTPSTATUS.BAD_REQUEST;
             c_errorCode := ErrorCodeEnum VAL_INVALID_FORMAT;
             c_message := "Invalid " ++ path ++ ": " ++ to_string value;
             c_details := c_details unassigned |}
      | _ =>
          (* Handle Mongoose duplicate key errors *)
          if branch_condition RuleDuplicateKey err then
            let match_ := default JUndefined (get_prop "keyPattern" (extra e)) in
            {| fired := Some RuleDuplicateKey;
               c_statusCode := HTTPSTATUS.CONFLICT;
               c_errorCode := ErrorCodeEnum DB_DUPLICATE_KEY;
               c_message := "A resource with this value already exists";
               c_details :=
                 if truthy match_
                 then JObj [("duplicateFields",
                             JArr (map JStr (Object_keys (spread match_))))]
                 else c_details unassigned |}
          (* Handle JSON syntax errors (malformed JSON in request body) *)
          else if branch_condition RuleJsonSyntax err then
            {| fired := Some RuleJsonSyntax;
               c_statusCode := HTTPSTATUS.BAD_REQUEST;
               c_errorCode := ErrorCodeEnum VAL_400;
               c_message := "Invalid JSON in request body";
               c_details := c_details unassigned |}
          (* Handle JWT errors *)
          else if branch_condition RuleJwt err then
            {| fired := Some RuleJwt;
               c_statusCode := HTTPSTATUS.UNAUTHORIZED;
               c_errorCode := ErrorCodeEnum AUTH_INVALID_TOKEN;
               c_message :=
                 if String.eqb (name e) "TokenExpiredError"
                 then "Your session has expired. Please log in again"
                 else "Invalid authentication token";
               c_details := c_details unassigned |}
          (* Handle rate limit errors (from express-rate-limit) *)
          else if branch_condition RuleRateLimit err then
            {| fired := Some RuleRateLimit;
               c_statusCode := HTTPSTATUS.TOO_MANY_REQUESTS;
               c_errorCode := ErrorCodeEnum RATE_429;
               c_message := "Too many requests. Please try again later";
               c_details := c_details unassigned |}
          else if branch_condition RuleUpload err then
            {| fired := Some RuleUpload;
               c_statusCode := HTTPSTATUS.BAD_REQUEST;
               c_errorCode := ErrorCodeEnum FILE_UPLOAD_ERROR;
               c_message :=
                 if JsValue_is_str "LIMIT_FILE_SIZE" (code_of e)
                 then "File size exceeds the maximum allowed limit"
                 else "File upload error";
               c_details := c_details unassigned |}
          (* Handle network/connection errors *)
          else if branch_condition RuleNetwork err then
            {| fired := Some RuleNetwork;
               c_statusCode := HTTPSTATUS.SERVICE_UNAVAILABLE;
               c_errorCode := ErrorCodeEnum EXT_SERVICE_UNAVAILABLE;
               c_message :=
                 "External service is unavailable. Please try again later";
               c_details := c_details unassigned |}
          (* Handle unknown errors *)
          else
            {| fired := Some RuleUnknown;
               c_statusCode := c_statusCode unassigned;
               c_errorCode := c_errorCode unassigned;
               c_message := str_or (message e) (c_message unassigned);
               c_details := c_details unassigned |}
      end
  end.

(** [error.name || "Error"]. *)
Definition errorName_of (err : Thrown) : string :=
  match err with
  | ThrownError e => str_or (name e) "Error"
  | ThrownOther n => str_or (default "" n) "Error"
  end.

(** [error instanceof Error && error.stack]: the stack when the test is
    truthy. *)
Definition stack_of (err : Thrown) : option string :=
  match err with
  | ThrownError e =>
      match stack e with
      | Some s => if String.eqb s "" then None else Some s
      | None => None
      end
  | ThrownOther _ => None
  end.

(** [errorHandler(err, req, res, _next)], with [Env.NODE_ENV] and the clock
    reading of [new Date().toISOString()] as inputs. *)
Definition errorHandler (NODE_ENV now : string)
    (err : Thrown) (req : Request) (res : Response) : Response :=
  let c := classify err in
  (* Prepare error response; include details when defined *)
  let errorResponse :=
    {| resp_errorName := errorName_of err;
       resp_errorCode := c_errorCode c;
       resp_httpStatus := c_statusCode c;
       resp_message := c_message c;
       resp_details := c_details c;
       resp_timestamp := now;
       resp_path := originalUrl req |} in
  (* Include stack trace only in development *)
  let errorResponse :=
    match String.eqb NODE_ENV "development", stack_of err with
    | true, Some s =>
        {| resp_errorName := resp_errorName errorResponse;
           resp_errorCode := resp_errorCode errorResponse;
           resp_httpStatus := resp_httpStatus errorResponse;
           resp_message := resp_message errorResponse;
           resp_details :=
             JObj (set_prop "stack" (JStr s)
                     (spread (resp_details errorResponse)));
           resp_timestamp := resp_timestamp errorResponse;
           resp_path := resp_path errorResponse |}
    | _, _ => errorResponse
    end in
  (* Send error response *)
  res_json errorResponse (res_status (c_statusCode c) res).

(** ** middlewares/notFound.middleware.ts *)

Definition notFoundHandler (now : string) (req : Request) (res : Response)
  : Response :=
  res_json
    {| resp_errorName := "NotFoundError";
       resp_errorCode := ErrorCodeEnum USR_404;
       resp_httpStatus := HTTPSTATUS.NOT_FOUND;
       resp_message :=
         "The requested endpoint " ++ method req ++ " " ++ originalUrl req
         ++ " was not found";
       resp_details := JUndefined;
       resp_timestamp := now;
       resp_path := originalUrl req |}
    (res_status HTTPSTATUS.NOT_FOUND res).

(** ** middlewares/asyncHandler.middleware.ts *)

(** Middleware acts on the reply under construction and on Express's
    [next]; the world records both.  [next_calls] lists the arguments of the
    calls made to [next], oldest first ([None] for a bare [next()]). *)
Record World : Type := {
  w_res : Response;
  next_calls : list (option Thrown)
}.

(** How a piece of code ends: normally, by a throw, or never (an [await]
    on a promise that does not settle). *)
Inductive Ending (A : Type) : Type :=
  | Done (a : A)
  | Raise (error : Thrown)
  | Hang.
Arguments Done {A} a.
Arguments Raise {A} error.
Arguments Hang {A}.

Definition Eff (A : Type) : Type := World -> World * Ending A.

#[global] Instance Eff_ret : MRet Eff := fun A a w => (w, Done a).

#[global] Instance Eff_bind : MBind Eff := fun A B k m w =>
  match m w with
  | (w', Done a) => k a w'
  | (w', Raise e) => (w', Raise e)
  | (w', Hang) => (w', Hang)
  end.

(** [try { m } catch (error) { h error }]. *)
Definition try_catch {A : Type} (m : Eff A) (h : Thrown -> Eff A) : Eff A :=
  fun w =>
    match m w with
    | (w', Raise e) => h e w'
    | other => other
    end.

(** A promise, seen when it is awaited. *)
Inductive PromiseState : Type :=
  | Fulfilled
  | Rejected (reason : Thrown)
  | Pending.

Definition await (p : PromiseState) : Eff unit :=
  fun w =>
    match p with
    | Fulfilled => (w, Done tt)
    | Rejected reason => (w, Raise reason)
    | Pending => (w, Hang)
    end.

Definition NextFunction : Type := option Thrown -> Eff unit.

(** Calling a controller either throws at once or returns a promise; the
    world it leaves is the one at the time the promise settles. *)
Definition AsyncController : Type := Request -> NextFunction -> Eff PromiseState.

Definition asyncHandler (controller : AsyncController)
    (req : Request) (next : NextFunction) : Eff unit :=
  try_catch
    (p ← controller req next; await p)
    (fun error => next (Some error)).

(** Express's [next]: the call is recorded for the router. *)
Definition express_next : NextFunction :=
  fun arg w =>
    ({| w_res := w_res w; next_calls := next_calls w ++ [arg] |}, Done tt).

(** Controllers for examples: one that answers, one that throws at once,
    one whose promise rejects after it has answered. *)
Definition answering_controller (b : ErrorResponse) : AsyncController :=
  fun _ _ w =>
    ({| w_res := res_json b (w_res w); next_calls := next_calls w |},
     Done Fulfilled).

Definition throwing_controller (e : Thrown) : AsyncController :=
  fun _ _ w => (w, Raise e).

Definition rejecting_controller (b : ErrorResponse) (e : Thrown) : AsyncController :=
  fun _ _ w =>
    ({| w_res := res_json b (w_res w); next_calls := next_calls w |},
     Done (Rejected e)).

Definition health_request : Request :=
  {| method := "GET"; originalUrl := "/health" |}.

Definition idle_world : World :=
  {| w_res := fresh_response; next_calls := [] |}.

Definition ok_body : ErrorResponse :=
  {| resp_errorName := ""; resp_errorCode := ""; resp_httpStatus := 200;
     resp_message := "Server is healthy"; resp_details := JUndefined;
     resp_timestamp := ""; resp_path := "/health" |}.

(** ** common/utils/process-handlers.ts *)

Inductive ProcessEvent : Type :=
  | unhandledRejection
  | uncaughtException
  | SIGTERM
  | SIGINT.

#[global] Instance ProcessEvent_eq_dec : EqDecision ProcessEvent.
Proof. solve_decision. Defined.

(** The four closures the module registers, and the timer callback the
    first of them creates. *)
Inductive Listener : Type :=
  | RejectionListener
  | ExceptionListener
  | SigtermListener
  | SigintListener.

#[global] Instance Listener_eq_dec : EqDecision Listener.
Proof. solve_decision. Defined.

(** The Node process: the registered listeners in registration order, the
    pending timers (delay in ms; every timer of this module runs
    [process.exit(1)]), the exit status once the process has ended, and the
    listeners run so far. *)
Record Process : Type := {
  listeners : list (ProcessEvent * Listener);
  timers : list Z;
  exited : option Z;
  invoked : list Listener
}.

Definition fresh_process : Process :=
  {| listeners := []; timers := []; exited := None; invoked := [] |}.

(** [process.on(event, listener)] appends; it never looks for duplicates. *)
Definition process_on (ev : ProcessEvent) (l : Listener) (p : Process) : Process :=
  {| listeners := listeners p ++ [(ev, l)];
     timers := timers p; exited := exited p; invoked := invoked p |}.

(** [process.exit(code)] ends the process on the spot. *)
Definition process_exit (code : Z) (p : Process) : Process :=
  {| listeners := listeners p; timers := timers p;
     exited := Some code; invoked := invoked p |}.

Definition setTimeout_exit1 (ms : Z) (p : Process) : Process :=
  {| listeners := listeners p; timers := timers p ++ [ms];
     exited := exited p; invoked := invoked p |}.

(** The body of each listener. *)
Definition listener_body (NODE_ENV : string) (l : Listener) (p : Process)
  : Process :=
  match l with
  | RejectionListener =>
      if String.eqb NODE_ENV "production" then setTimeout_exit1 1000 p else p
  | ExceptionListener => process_exit 1 p
  | SigtermListener => process_exit 0 p
  | SigintListener => process_exit 0 p
  end.

Definition run_listener (NODE_ENV : string) (l : Listener) (p : Process)
  : Process :=
  let p' := {| listeners := listeners p; timers := timers p;
               exited := exited p; invoked := invoked p ++ [l] |} in
  listener_body NODE_ENV l p'.

(** Running listeners one after the other; nothing runs in a process that
    has exited. *)
Fixpoint run_listeners (NODE_ENV : string) (ls : list Listener) (p : Process)
  : Process :=
  match ls with
  | [] => p
  | l :: ls' =>
      match exited p with
      | Some _ => p
      | None => run_listeners NODE_ENV ls' (run_listener NODE_ENV l p)
      end
  end.

Definition listeners_of (ev : ProcessEvent) (p : Process) : list Listener :=
  map snd (filter (fun el => fst el = ev) (listeners p)).

(** The process emits [ev]. *)
Definition emit (NODE_ENV : string) (ev : ProcessEvent) (p : Process) : Process :=
  run_listeners NODE_ENV (listeners_of ev p) p.

Definition handleUnhandledRejection : Process -> Process :=
  process_on unhandledRejection RejectionListener.

Definition handleUncaughtException : Process -> Process :=
  process_on uncaughtException ExceptionListener.

Definition handleSIGTERM : Process -> Process :=
  process_on SIGTERM SigtermListener.

Definition handleSIGINT : Process -> Process :=
  process_on SIGINT SigintListener.

Definition initializeProcessHandlers (p : Process) : Process :=
  handleSIGINT (handleSIGTERM (handleUncaughtException (handleUnhandledRejection p))).

(** How often listener [l] ran. *)
Definition times_fired (l : Listener) (p : Process) : nat :=
  length (filter (fun x => x = l) (invoked p)).

(** The listener the module registers for each event, and the exit status
    its listener ends the process with, if it does. *)
Definition listener_for (ev : ProcessEvent) : Listener :=
  match ev with
  | unhandledRejection => RejectionListener
  | uncaughtException => ExceptionListener
  | SIGTERM => SigtermListener
  | SIGINT => SigintListener
  end.

Definition exit_status (ev : ProcessEvent) : option Z :=
  match ev with
  | unhandledRejection => None
  | uncaughtException => Some 1
  | SIGTERM => Some 0
  | SIGINT => Some 0
  end.

(** A process in which [initializeProcessHandlers] was called [n] times. *)
Definition initialized (n : nat) : Process :=
  Nat.iter n initializeProcessHandlers fresh_process.

(** ** Sample faults *)

(** [new Error(message)], with [trace] for the stack the engine records. *)
Definition new_Error (trace message : string) : ErrorObject :=
  {| cls := InstError; name := "Error"; message := message;
     stack := Some trace; extra := [] |}.

(** [new AppError("Created", HTTPSTATUS.OK)]. *)
Definition app_error_status_ok : ErrorObject :=
  new_AppError "2024-01-15T10:30:00.000Z" "AppError: Created at create (users.js:7)"
    "AppError" "Created" (Some HTTPSTATUS.OK) None JUndefined.

(** The driver's duplicate-key error on the unique index of [email]. *)
Definition duplicate_email_error : ErrorObject :=
  {| cls := InstError;
     name := "MongoServerError";
     message := "E11000 duplicate key error collection: app.users";
     stack := Some "MongoServerError: E11000 duplicate key error";
     extra := [("code", JNum 11000);
               ("keyPattern", JObj [("email", JNum 1)]);
               ("keyValue", JObj [("email", JStr "a@b.c")])] |}.

(** An operational fault whose caller put a [stack] entry in the details:
    [new InternalServerException("Failed to fetch user", undefined,
    { stack: cause.stack })]. *)
Definition exception_with_stack_details : ErrorObject :=
  InternalServerException "2024-01-15T10:30:00.000Z"
    "InternalServerException: Failed to fetch user"
    (Some "Failed to fetch user") None
    (JObj [("stack", JStr "Error: connect ECONNREFUSED 10.0.0.5:27017")]).

(** [new NotFoundException("User with ID 42 not found")]. *)
Definition user_not_found_exception : ErrorObject :=
  NotFoundException "2024-01-15T10:30:00.000Z"
    "NotFoundException: User with ID 42 not found"
    (Some "User with ID 42 not found") None JUndefined.

Definition boom_error : Thrown :=
  ThrownError (new_Error "Error: boom at handler (routes.js:3)" "boom").

Definition users_request : Request :=
  {| method := "POST"; originalUrl := "/api/v1/users" |}.

(** A branch fires when its condition holds and no earlier branch's does:
    the chain is tested top to bottom. *)
Definition fires (r : Rule) (err : Thrown) : Prop :=
  branch_condition r err = true
  /\ forall r', (rule_index r' < rule_index r)%nat -> branch_condition r' err = false.

(** The value [getEnv] tests: [process.env[key] ?? defaultValue]. *)
Definition chosen_value (process_env : gmap string string)
    (key : string) (defaultValue : option string) : option string :=
  nullish_or (process_env !! key) defaultValue.

(** Whether the reply's details carry a property called [stack]. *)
Definition has_stack_field (b : ErrorResponse) : bool :=
  bool_decide (is_Some (get_prop "stack" (spread (resp_details b)))).

(** ** configs/env.config.ts: the whole [Env] object *)

(** Code that logs and may throw: the console lines written, then how the
    call ended.  A throw ends the sequence; what was logged stays. *)
Definition Logged (A : Type) : Type := list string * Outcome A.

#[global] Instance Logged_ret : MRet Logged := fun A a => ([], Returned a).

#[global] Instance Logged_bind : MBind Logged := fun A B k m =>
  match m with
  | (l1, Returned a) => let '(l2, r) := k a in ((l1 ++ l2)%list, r)
  | (l1, Threw msg) => (l1, Threw msg)
  end.

Record JwtConfig : Type := {
  jwt_SECRET : string;
  jwt_EXPIRES_IN : string;
  jwt_REFRESH_SECRET : string;
  jwt_REFRESH_EXPIRES_IN : string
}.

Record EnvConfig : Type := {
  cfg_PORT : string;
  cfg_NODE_ENV : string;
  cfg_BASE_PATH : string;
  cfg_FRONTEND_ORIGIN : string;
  cfg_MONGO_URI : string;
  cfg_JWT : JwtConfig
}.

(** The module's [export const Env = {...}]: nine calls of [getEnv], in
    the order the object literal lists them. *)
Definition loadEnv (process_env : gmap string string) : Logged EnvConfig :=
  PORT ← getEnv process_env "PORT" (Some "8000");
  NODE_ENV ← getEnv process_env "NODE_ENV" (Some "development");
  BASE_PATH ← getEnv process_env "BASE_PATH" (Some "/api/v1");
  FRONTEND_ORIGIN ←
    getEnv process_env "FRONTEND_ORIGIN" (Some "http://localhost:3000");
  MONGO_URI ←
    getEnv process_env "MONGO_URI"
      (Some "mongodb://localhost:27017/database_name");
  SECRET ← getEnv process_env "JWT_SECRET" None;
  EXPIRES_IN ← getEnv process_env "JWT_EXPIRES_IN" (Some "15m");
  REFRESH_SECRET ← getEnv process_env "JWT_REFRESH_SECRET" None;
  REFRESH_EXPIRES_IN ← getEnv process_env "JWT_REFRESH_EXPIRES_IN" (Some "30d");
  mret {| cfg_PORT := PORT;
          cfg_NODE_ENV := NODE_ENV;
          cfg_BASE_PATH := BASE_PATH;
          cfg_FRONTEND_ORIGIN := FRONTEND_ORIGIN;
          cfg_MONGO_URI := MONGO_URI;
          cfg_JWT := {| jwt_SECRET := SECRET;
                        jwt_EXPIRES_IN := EXPIRES_IN;
                        jwt_REFRESH_SECRET := REFRESH_SECRET;
                        jwt_REFRESH_EXPIRES_IN := REFRESH_EXPIRES_IN |} |}.

(** The keys [loadEnv] reads with their defaults, in reading order. *)
Definition env_entries : list (string * option string) :=
  [("PORT", Some "8000");
   ("NODE_ENV", Some "development");
   ("BASE_PATH", Some "/api/v1");
   ("FRONTEND_ORIGIN", Some "http://localhost:3000");
   ("MONGO_URI", Some "mongodb://localhost:27017/database_name");
   ("JWT_SECRET", None);
   ("JWT_EXPIRES_IN", Some "15m");
   ("JWT_REFRESH_SECRET", None);
   ("JWT_REFRESH_EXPIRES_IN", Some "30d")].

(** The values of a loaded [Env], in the same order. *)
Definition env_values (E : EnvConfig) : list string :=
  [cfg_PORT E; cfg_NODE_ENV E; cfg_BASE_PATH E; cfg_FRONTEND_ORIGIN E;
   cfg_MONGO_URI E; jwt_SECRET (cfg_JWT E); jwt_EXPIRES_IN (cfg_JWT E);
   jwt_REFRESH_SECRET (cfg_JWT E); jwt_REFRESH_EXPIRES_IN (cfg_JWT E)].

(** [getEnv] accepts the entry: its chosen value is a non-empty string. *)
Definition entry_ok (process_env : gmap string string)
    (entry : string * option string) : bool :=
  match chosen_value process_env entry.1 entry.2 with
  | Some v => negb (String.eqb v "")
  | None => false
  end.

(** ** database/database.ts *)

(** What [console.log] and [console.error] receive. *)
Inductive ConsoleEntry : Type :=
  | ConsoleLog (text : string)
  | ConsoleError (text : string) (error : Thrown).

(** A call that returns a promise, or throws before it does. *)
Inductive CallResult : Type :=
  | ThrowsNow (error : Thrown)
  | Promises (p : PromiseState).

(** [connectDatabase()], with [mongoose.connect] and [Env.MONGO_URI] as
    inputs; [trace] is the stack the new [Error] records.  The result is
    the console output and the state of the promise the function returns. *)
Definition connectDatabase (mongoose_connect : string -> CallResult)
    (MONGO_URI trace : string) : list ConsoleEntry * PromiseState :=
  match mongoose_connect MONGO_URI with
  | Promises Fulfilled => ([ConsoleLog "Connected to MongoDB"], Fulfilled)
  | Promises Pending => ([], Pending)
  | Promises (Rejected error) | ThrowsNow error =>
      ([ConsoleError "Error connecting to MongoDB" error],
       Rejected (ThrownError (new_Error trace "Error connecting to MongoDB")))
  end.

(** ** examples/error-examples.ts *)



(** ** asyncHandler as a middleware *)

(** Calling an [async] function never throws: the body's ending becomes
    the state of the promise it returns. *)
Definition async_call (body : Eff unit) : Eff PromiseState :=
  fun w =>
    match body w with
    | (w', Done _) => (w', Done Fulfilled)
    | (w', Raise e) => (w', Done (Rejected e))
    | (w', Hang) => (w', Done Pending)
    end.

(** The function [asyncHandler(controller)] returns, called like a
    controller. *)
Definition wrapped (controller : AsyncController) : AsyncController :=
  fun req next => async_call (asyncHandler controller req next).

(** ** Timers of the process *)

(** The oldest pending timer expires: its callback runs [process.exit(1)],
    unless the process has ended. *)
Definition timer_expires (p : Process) : Process :=
  match exited p, timers p with
  | None, _ :: rest =>
      process_exit 1
        {| listeners := listeners p; timers := rest;
           exited := exited p; invoked := invoked p |}
  | _, _ => p
  end.

(** ** More sample faults *)

(** jsonwebtoken's [TokenExpiredError] and [JsonWebTokenError]. *)
Definition token_expired_error : ErrorObject :=
  {| cls := InstError; name := "TokenExpiredError"; message := "jwt expired";
     stack := Some "TokenExpiredError: jwt expired";
     extra := [("expiredAt", JStr "2024-01-15T10:00:00.000Z")] |}.

Definition token_malformed_error : ErrorObject :=
  {| cls := InstError; name := "JsonWebTokenError"; message := "jwt malformed";
     stack := Some "JsonWebTokenError: jwt malformed"; extra := [] |}.

(** An error carrying [statusCode: 429]. *)
Definition rate_limited_error : ErrorObject :=
  {| cls := InstError; name := "Error"; message := "Too many requests";
     stack := Some "Error: Too many requests";
     extra := [("statusCode", JNum 429)] |}.

(** multer's errors for a file over the size limit and for an unexpected
    field. *)
Definition file_too_large_error : ErrorObject :=
  {| cls := InstError; name := "MulterError"; message := "File too large";
     stack := Some "MulterError: File too large";
     extra := [("code", JStr "LIMIT_FILE_SIZE"); ("field", JStr "avatar")] |}.

Definition unexpected_file_error : ErrorObject :=
  {| cls := InstError; name := "MulterError"; message := "Unexpected field";
     stack := Some "MulterError: Unexpected field";
     extra := [("code", JStr "LIMIT_UNEXPECTED_FILE")] |}.

(** An error whose [name] is [ECONNREFUSED], and Node's own error for a
    refused connection, whose [name] is [Error] and whose [code] is
    [ECONNREFUSED]. *)
Definition named_connection_refused : ErrorObject :=
  {| cls := InstError; name := "ECONNREFUSED"; message := "connection refused";
     stack := Some "ECONNREFUSED: connection refused"; extra := [] |}.

Definition node_connection_refused : ErrorObject :=
  {| cls := InstError; name := "Error";
     message := "connect ECONNREFUSED 127.0.0.1:27017";
     stack := Some "Error: connect ECONNREFUSED 127.0.0.1:27017";
     extra := [("errno", JNum (-111)); ("code", JStr "ECONNREFUSED");
               ("syscall", JStr "connect")] |}.

(** body-parser's error for a malformed JSON body. *)
Definition malformed_json_error : ErrorObject :=
  {| cls := InstSyntaxError; name := "SyntaxError";
     message := "Unexpected token b in JSON at position 1";
     stack := Some "SyntaxError: Unexpected token b in JSON at position 1";
     extra := [("expose", JBool true); ("statusCode", JNum 400);
               ("status", JNum 400); ("body", JStr "{bad");
               ("type", JStr "entity.parse.failed")] |}.

(** Mongoose's errors for two failed validators and for a malformed id. *)
Definition user_validation_error : ErrorObject :=
  {| cls := InstValidationError
       [("email", {| ve_path := "email"; ve_message := "Path `email` is required." |});
        ("age", {| ve_path := "age"; ve_message := "Path `age` (-1) is less than minimum allowed value (0)." |})];
     name := "ValidationError";
     message := "User validation failed";
     stack := Some "ValidationError: User validation failed";
     extra := [] |}.

Definition bad_id_cast_error : ErrorObject :=
  {| cls := InstCastError "_id" (JStr "abc");
     name := "CastError";
     message := "Cast to ObjectId failed for value abc at path _id";
     stack := Some "CastError: Cast to ObjectId failed";
     extra := [("kind", JStr "ObjectId")] |}.

(** ** index.ts: the callback of [app.listen] *)

(** [async () => { await connectDatabase(); console.log(`Server running
    ...`) }]: the console output and the state of the callback's promise. *)
Definition listen_callback (mongoose_connect : string -> CallResult)
    (E : EnvConfig) (trace : string) : list ConsoleEntry * PromiseState :=
  match connectDatabase mongoose_connect (cfg_MONGO_URI E) trace with
  | (out, Fulfilled) =>
      ((out ++ [ConsoleLog ("Server running on port " ++ cfg_PORT E ++ " in "
                            ++ cfg_NODE_ENV E ++ " mode")])%list,
       Fulfilled)
  | other => other
  end.

(** Nobody awaits the callback's promise: if it rejects, the process emits
    [unhandledRejection]. *)
Definition unawaited (NODE_ENV : string) (p : PromiseState) (proc : Process)
  : Process :=
  match p with
  | Rejected _ => emit NODE_ENV unhandledRejection proc
  | _ => proc
  end.

(** ** Sample environments *)

(** Only the two secrets are set. *)
Definition secrets_only_env : gmap string string :=
  {[ "JWT_SECRET" := "s3cret"; "JWT_REFRESH_SECRET" := "r3fresh" ]}.

(** A production environment without [JWT_REFRESH_SECRET]. *)
Definition incomplete_production_env : gmap string string :=
  {[ "NODE_ENV" := "production"; "JWT_SECRET" := "s3cret" ]}.

(** * Properties *)

(** ** Property lists *)

Lemma get_set_prop_same (k : string) (v : JsValue) (ps : list (string * JsValue)) :
  get_prop k (set_prop k v ps) = Some v.
Proof.
  induction ps as [|[k' v'] ps IH]; simpl.
  - by rewrite String.eqb_refl.
  - destruct (String.eqb k k') eqn:E; simpl; rewrite E; [done | exact IH].
Qed.

(** ** getEnv *)

Lemma getEnv_outcome (env : gmap string string) (key : string) (d : option string) :
  (getEnv env key d).2 =
    match chosen_value env key d with
    | Some v => if String.eqb v "" then Threw ("Missing env variable: " ++ key)
                else Returned v
    | None => Threw ("Missing env variable: " ++ key)
    end.
Proof.
  unfold getEnv, chosen_value.
  destruct (nullish_or (env !! key) d) as [v|]; [|done].
  by destruct (String.eqb v "").
Qed.

(** C9. [getEnv] returns the environment variable's value when it is set
    and non-empty, otherwise (the variable being unset) the default when
    that is non-empty; it throws exactly when the chosen value
    [process.env[key] ?? defaultValue] is absent or the empty string.  In
    particular a variable set to the empty string makes it throw whatever
    the default, which is consulted only for an unset variable. *)
Theorem getEnv_returns_or_throws
    (env : gmap string string) (key : string) (d : option string) :
  (forall v, env !! key = Some v -> v <> "" ->
     (getEnv env key d).2 = Returned v)
  /\ (forall v, env !! key = None -> d = Some v -> v <> "" ->
        (getEnv env key d).2 = Returned v)
  /\ ((exists m, (getEnv env key d).2 = Threw m) <->
        chosen_value env key d = None \/ chosen_value env key d = Some "")
  /\ (env !! key = Some "" ->
        (getEnv env key d).2 = Threw ("Missing env variable: " ++ key)).
Proof.
  rewrite getEnv_outcome. unfold chosen_value.
  split; [|split; [|split; [split|]]].
  - intros v Hk Hv. rewrite Hk. simpl. by destruct (String.eqb_spec v "").
  - intros v Hk Hd Hv. rewrite Hk, Hd. simpl. by destruct (String.eqb_spec v "").
  - intros [m Hm]. destruct (nullish_or (env !! key) d) as [v|]; [|by left].
    destruct (String.eqb_spec v "") as [Hv|Hv];
      [right; by rewrite Hv | discriminate].
  - intros [Hc | Hc]; rewrite Hc; simpl; eauto.
  - intros Hk. by rewrite Hk.
Qed.

Lemma getEnv_returns_or_throws_witness :
  (getEnv {[ "PORT" := "" ]} "PORT" (Some "8000")).2
    = Threw "Missing env variable: PORT"
  /\ (getEnv {[ "PORT" := "3000" ]} "PORT" (Some "8000")).2 = Returned "3000"
  /\ (getEnv (∅ : gmap string string) "PORT" (Some "8000")).2 = Returned "8000".
Proof.
  split; [|split].
  - apply (getEnv_returns_or_throws {[ "PORT" := "" ]} "PORT" (Some "8000")).
    reflexivity.
  - apply (proj1 (getEnv_returns_or_throws {[ "PORT" := "3000" ]} "PORT"
                    (Some "8000")));
      [reflexivity | discriminate].
  - apply (proj1 (proj2 (getEnv_returns_or_throws ∅ "PORT" (Some "8000"))));
      [reflexivity | reflexivity | discriminate].
Defined.

(** What [getEnv] logs: one line unless [NODE_ENV] is [production]. *)
Lemma getEnv_console (env : gmap string string) (key : string) (d : option string) :
  (getEnv env key d).1 =
    if bool_decide (env !! "NODE_ENV" = Some "production") then []
    else ["Env " ++ key ++ ": " ++ show_opt (chosen_value env key d)].
Proof.
  unfold getEnv, chosen_value.
  destruct (nullish_or (env !! key) d) as [v|];
    [destruct (String.eqb v "")|]; simpl; by case_bool_decide.
Qed.

(** With [NODE_ENV] unset the configuration is [development]. *)
Lemma Env_NODE_ENV_default (env : gmap string string) :
  env !! "NODE_ENV" = None -> Env_NODE_ENV env = Returned "development".
Proof.
  intros H. unfold Env_NODE_ENV. rewrite getEnv_outcome.
  unfold chosen_value. by rewrite H.
Qed.

(** ** AppError and its subclasses *)

(** C4. Constructing any of the eighteen variants without an explicit
    error code yields exactly the default (httpStatus, errorCode) pair of
    the specification's table, whatever message and details are passed;
    the message and the details are the caller's when given, and the fault
    marks itself operational. *)
Theorem construct_table_default
    (now trace : string) (v : Variant) (msg : option string) (dtl : JsValue) :
  exists f,
    as_AppError (construct now trace v msg None dtl) = Some f
    /\ statusCode f = (spec_default_table v).1
    /\ taxonomy_name (errorCode f) = Some (spec_default_table v).2
    /\ isOperational f = true
    /\ details f = dtl
    /\ (forall m, message (construct now trace v (Some m) None dtl) = m).
Proof.
  destruct v; (eexists; split; [reflexivity | repeat split]).
Qed.

(** The three rows the specification singles out, with the enum keys. *)
Example construct_examples (now trace : string) :
  (forall f, as_AppError (ValidationException now trace (Some "Email is required") None JUndefined) = Some f ->
     (statusCode f, errorCode f) = (400, VAL_400))
  /\ (forall f, as_AppError (DatabaseConnectionException now trace None None JUndefined) = Some f ->
        (statusCode f, errorCode f) = (503, DB_CONNECTION_ERROR))
  /\ (forall f, as_AppError (ExternalServiceException now trace None None JUndefined) = Some f ->
        (statusCode f, errorCode f) = (502, EXT_API_ERROR)).
Proof. repeat split; intros f [= <-]; reflexivity. Qed.

(** An explicit code replaces the default; the status stays the class's. *)
Lemma construct_explicit_code
    (now trace : string) (v : Variant) (msg : option string)
    (c : ErrorCodeEnumType) (dtl : JsValue) :
  exists f,
    as_AppError (construct now trace v msg (Some c) dtl) = Some f
    /\ errorCode f = c
    /\ statusCode f = (spec_default_table v).1.
Proof. destruct v; (eexists; split; [reflexivity | by split]). Qed.

(** Every subclass carries a status between 400 and 599. *)
Lemma construct_status_in_range
    (now trace : string) (v : Variant) (msg : option string)
    (c : option ErrorCodeEnumType) (dtl : JsValue) :
  exists f,
    as_AppError (construct now trace v msg c dtl) = Some f
    /\ 400 <= statusCode f <= 599.
Proof.
  destruct v; (eexists; split; [reflexivity | simpl; cbv; split; discriminate]).
Qed.

(** ** asyncHandler *)

(** Whatever [next] is, the wrapper hands it the fault of a failed
    controller and does not touch it otherwise. *)
Lemma asyncHandler_run (controller : AsyncController) (req : Request)
    (next : NextFunction) (w : World) :
  asyncHandler controller req next w =
    match controller req next w with
    | (w', Raise e) => next (Some e) w'
    | (w', Done (Rejected e)) => next (Some e) w'
    | (w', Done Fulfilled) => (w', Done tt)
    | (w', Done Pending) => (w', Hang)
    | (w', Hang) => (w', Hang)
    end.
Proof.
  unfold asyncHandler, try_catch, mbind, Eff_bind.
  destruct (controller req next w) as [w' [[| e |] | e |]]; reflexivity.
Qed.

(** C5. For every wrapped controller and request: when the controller
    throws synchronously, or the promise it returns rejects, the wrapper
    calls [next] with that very fault exactly once, after whatever calls
    the controller made itself, and ends normally; when the controller's
    promise fulfils, the wrapper makes no call to [next] at all, whatever
    the controller did to the response. *)
Theorem asyncHandler_forwards_once (controller : AsyncController)
    (req : Request) (w w' : World) (e : Thrown) :
  (controller req express_next w = (w', Raise e)
   \/ controller req express_next w = (w', Done (Rejected e)) ->
     asyncHandler controller req express_next w
       = ({| w_res := w_res w'; next_calls := next_calls w' ++ [Some e] |},
          Done tt))
  /\ (controller req express_next w = (w', Done Fulfilled) ->
        asyncHandler controller req express_next w = (w', Done tt)).
Proof.
  rewrite asyncHandler_run.
  split; [intros [H | H] | intros H]; rewrite H; reflexivity.
Qed.

Lemma asyncHandler_forwards_once_witness :
  next_calls (asyncHandler (throwing_controller boom_error)
                health_request express_next idle_world).1
    = [Some boom_error]
  /\ next_calls (asyncHandler (rejecting_controller ok_body boom_error)
                   health_request express_next idle_world).1
       = [Some boom_error]
  /\ next_calls (asyncHandler (answering_controller ok_body)
                   health_request express_next idle_world).1 = [].
Proof.
  split; [|split].
  - rewrite (proj1 (asyncHandler_forwards_once
                      (throwing_controller boom_error)
                      health_request idle_world idle_world boom_error));
      [reflexivity | left; reflexivity].
  - rewrite (proj1 (asyncHandler_forwards_once
                      (rejecting_controller ok_body boom_error)
                      health_request idle_world
                      {| w_res := res_json ok_body fresh_response;
                         next_calls := [] |}
                      boom_error));
      [reflexivity | right; reflexivity].
  - rewrite (proj2 (asyncHandler_forwards_once
                      (answering_controller ok_body) health_request idle_world
                      {| w_res := res_json ok_body fresh_response;
                         next_calls := [] |}
                      boom_error));
      reflexivity.
Defined.

(** The count of [next] calls: one more than the controller's own on a
    failure, the controller's own on success. *)
Corollary asyncHandler_call_count (controller : AsyncController)
    (req : Request) (w : World) :
  let after := (controller req express_next w).1 in
  let total := length (next_calls (asyncHandler controller req express_next w).1) in
  match (controller req express_next w).2 with
  | Raise _ | Done (Rejected _) => total = S (length (next_calls after))
  | _ => total = length (next_calls after)
  end.
Proof.
  rewrite asyncHandler_run.
  destruct (controller req express_next w) as [w' [[| e |] | e |]]; simpl;
    rewrite ?length_app; simpl; lia.
Qed.

(** ** notFoundHandler *)

(** C8. For every request, [notFoundHandler] replies with status 404, in
    the wire status and in the body, error code [USR_404] (the
    specification's client-not-found), and the message "The requested
    endpoint <METHOD> <path> was not found". *)
Theorem notFoundHandler_reply (now : string) (req : Request) (res : Response) :
  exists b,
    res_body (notFoundHandler now req res) = Some b
    /\ res_statusCode (notFoundHandler now req res) = 404
    /\ resp_httpStatus b = 404
    /\ resp_errorCode b = ErrorCodeEnum USR_404
    /\ taxonomy_name USR_404 = Some "client-not-found"
    /\ resp_message b =
         "The requested endpoint " ++ method req ++ " " ++ originalUrl req
         ++ " was not found"
    /\ resp_path b = originalUrl req.
Proof. eexists. repeat split. Qed.

Example notFoundHandler_get_nope :
  res_body (notFoundHandler "2024-01-15T10:30:00.000Z"
              {| method := "GET"; originalUrl := "/nope" |} fresh_response)
  = Some {| resp_errorName := "NotFoundError";
            resp_errorCode := "USR_404";
            resp_httpStatus := 404;
            resp_message := "The requested endpoint GET /nope was not found";
            resp_details := JUndefined;
            resp_timestamp := "2024-01-15T10:30:00.000Z";
            resp_path := "/nope" |}.
Proof. reflexivity. Qed.

(** ** errorHandler: the cascade *)

Lemma rule_index_inj (r1 r2 : Rule) : rule_index r1 = rule_index r2 -> r1 = r2.
Proof. destruct r1, r2; simpl; intros H; try reflexivity; discriminate H. Qed.

(** Two branches cannot both fire: the later one requires the earlier
    one's condition to fail. *)
Lemma fires_unique (r1 r2 : Rule) (err : Thrown) :
  fires r1 err -> fires r2 err -> r1 = r2.
Proof.
  intros [H1 L1] [H2 L2].
  destruct (lt_eq_lt_dec (rule_index r1) (rule_index r2)) as [[Hlt | Heq] | Hgt].
  - rewrite (L2 _ Hlt) in H1. discriminate.
  - by apply rule_index_inj.
  - rewrite (L1 _ Hgt) in H2. discriminate.
Qed.

Ltac earlier_rules :=
  let r' := fresh "r'" in
  let Hlt := fresh "Hlt" in
  intros r' Hlt; destruct r'; simpl in Hlt; try lia; simpl;
  try reflexivity; try assumption.

(** Walk down the [else if] part of the chain: case on each condition in
    turn; where it holds that branch is the witness. *)
Ltac walk_chain :=
  repeat (match goal with
          | |- context [if branch_condition ?r ?err then _ else _] =>
              let E := fresh "E" in
              destruct (branch_condition r err) eqn:E;
              [eexists; split; [reflexivity|]; split;
               [assumption | earlier_rules] |]
          end);
  eexists; split; [reflexivity|]; split; [reflexivity | earlier_rules].

(** For an [Error] object the chain always takes a branch, and the branch
    taken is the first whose condition holds. *)
Lemma classify_fires (e : ErrorObject) :
  exists r, fired (classify (ThrownError e)) = Some r /\ fires r (ThrownError e).
Proof.
  destruct e as [c n m s x]. unfold classify.
  destruct c as [f | errors | path value | |]; cbn [cls]; walk_chain.
Qed.

(** The wire status is the classified status, and so is the body's. *)
Lemma errorHandler_status (NODE_ENV now : string) (err : Thrown)
    (req : Request) (res : Response) :
  res_statusCode (errorHandler NODE_ENV now err req res)
    = c_statusCode (classify err)
  /\ exists b,
       res_body (errorHandler NODE_ENV now err req res) = Some b
       /\ resp_httpStatus b = c_statusCode (classify err)
       /\ resp_errorCode b = c_errorCode (classify err)
       /\ resp_message b = c_message (classify err)
       /\ resp_errorName b = errorName_of err
       /\ resp_path b = originalUrl req
       /\ resp_timestamp b = now.
Proof.
  unfold errorHandler. split; [reflexivity|].
  destruct (String.eqb NODE_ENV "development"), (stack_of err);
    eexists; repeat split.
Qed.

(** Every branch but the first assigns one of six fixed statuses. *)
Lemma classify_foreign_status (e : ErrorObject) :
  as_AppError e = None ->
  c_statusCode (classify (ThrownError e)) ∈ [400; 401; 409; 429; 500; 503].
Proof.
  destruct e as [c n m s x]. unfold as_AppError, classify. cbn [cls].
  destruct c as [f | errors | path value | |]; intros H; try discriminate H;
    repeat (match goal with |- context [if ?b then _ else _] => destruct b end);
    cbn; set_solver.
Qed.

(** A thrown value that is not an [Error] takes no branch: the reply is
    built from the initial bindings. *)
Lemma classify_not_an_error (n : option string) :
  classify (ThrownOther n) = unassigned
  /\ forall r, branch_condition r (ThrownOther n) = false.
Proof. split; [reflexivity | by intros []]. Qed.

(** C1 (as amended). For every fault, an [Error] object, and any request
    context, exactly one rule of the ten-step cascade fires: the first one
    whose condition holds.  The status of the reply lies in [400,599]
    whenever the fault is not an [AppError]; for an [AppError] it is the
    fault's own [statusCode], taken verbatim, which lies in that range for
    each of the eighteen subclasses. *)
Theorem errorHandler_one_rule_status
    (NODE_ENV now : string) (e : ErrorObject) (req : Request) (res : Response) :
  (exists r,
      fired (classify (ThrownError e)) = Some r
      /\ fires r (ThrownError e)
      /\ forall r', fires r' (ThrownError e) -> r' = r)
  /\ (as_AppError e = None ->
        400 <= res_statusCode (errorHandler NODE_ENV now (ThrownError e) req res)
            <= 599)
  /\ (forall f, as_AppError e = Some f ->
        res_statusCode (errorHandler NODE_ENV now (ThrownError e) req res)
          = statusCode f)
  /\ (forall now' trace v msg c dtl,
        400 <= res_statusCode
                 (errorHandler NODE_ENV now
                    (ThrownError (construct now' trace v msg c dtl)) req res)
            <= 599).
Proof.
  split; [|split; [|split]].
  - destruct (classify_fires e) as (r & Hr & Hf).
    exists r. repeat split; try assumption; try apply Hf.
    intros r' Hf'. exact (fires_unique _ _ _ Hf' Hf).
  - intros H. rewrite (proj1 (errorHandler_status _ _ _ _ _)).
    pose proof (classify_foreign_status e H) as Hin.
    repeat (apply elem_of_cons in Hin as [-> | Hin]; [lia|]).
    by apply elem_of_nil in Hin.
  - intros f H. rewrite (proj1 (errorHandler_status _ _ _ _ _)).
    destruct e as [c n m s x]. unfold as_AppError in H. cbn [cls] in H.
    destruct c; try discriminate H. injection H as ->. reflexivity.
  - intros now' trace v msg c dtl.
    rewrite (proj1 (errorHandler_status _ _ _ _ _)).
    destruct (construct_status_in_range now' trace v msg c dtl) as (f & Hf & Hr).
    destruct v; injection Hf as <-; exact Hr.
Qed.

Lemma errorHandler_one_rule_status_witness :
  400 <= res_statusCode
           (errorHandler "production" "2024-01-15T10:30:00.000Z"
              (ThrownError (new_Error "Error at query (db.js:12)" "boom"))
              users_request fresh_response)
      <= 599
  /\ res_statusCode
       (errorHandler "production" "2024-01-15T10:30:00.000Z"
          (ThrownError user_not_found_exception) users_request
          fresh_response) = 404.
Proof.
  split.
  - apply (proj1 (proj2 (errorHandler_one_rule_status "production"
                           "2024-01-15T10:30:00.000Z"
                           (new_Error "Error at query (db.js:12)" "boom")
                           users_request fresh_response))).
    reflexivity.
  - destruct (as_AppError user_not_found_exception) as [f|] eqn:Hf;
      [|discriminate Hf].
    rewrite (proj1 (proj2 (proj2 (errorHandler_one_rule_status "production"
                                    "2024-01-15T10:30:00.000Z"
                                    user_not_found_exception
                                    users_request fresh_response))) f Hf).
    injection Hf as <-. reflexivity.
Defined.

(** C1, counterexample. An [AppError] created with [HTTPSTATUS.OK] is
    answered with status 200, outside [400,599]. *)
Lemma errorHandler_status_not_always_error :
  fired (classify (ThrownError app_error_status_ok)) = Some RuleAppError
  /\ res_statusCode
       (errorHandler "production" "2024-01-15T10:30:00.000Z"
          (ThrownError app_error_status_ok) users_request fresh_response) = 200
  /\ ~ (400 <= res_statusCode
                 (errorHandler "production" "2024-01-15T10:30:00.000Z"
                    (ThrownError app_error_status_ok) users_request
                    fresh_response)
            <= 599).
Proof. split; [reflexivity | split; [reflexivity | cbv; intros [H _]; exact (H eq_refl)]]. Qed.

(** ** errorHandler: the fallback branch *)

(** The last branch copies a non-empty message of the fault into the
    reply; [NODE_ENV] plays no part in it. *)
Lemma unknown_error_message_verbatim
    (NODE_ENV now : string) (e : ErrorObject) (req : Request) (res : Response) :
  fired (classify (ThrownError e)) = Some RuleUnknown ->
  message e <> "" ->
  exists b,
    res_body (errorHandler NODE_ENV now (ThrownError e) req res) = Some b
    /\ resp_message b = message e.
Proof.
  intros Hf Hm.
  destruct (errorHandler_status NODE_ENV now (ThrownError e) req res)
    as (_ & b & Hb & _ & _ & Hmsg & _).
  exists b. split; [exact Hb|]. rewrite Hmsg.
  destruct e as [c n m s x]. unfold classify in *. cbn [cls message] in *.
  destruct c; try discriminate Hf;
    repeat (match type of Hf with
            | context [if ?b then _ else _] => destruct b; try discriminate Hf
            end);
    cbn; unfold str_or; by destruct (String.eqb_spec m "").
Qed.

(** C2, the code at a failing input. In production two unclassified
    faults that differ only in their message get different reply
    messages, each the fault's own text, not the generic string. *)
Lemma unknown_error_message_leaks :
  let reply m :=
    errorHandler "production" "2024-01-15T10:30:00.000Z"
      (ThrownError (new_Error "Error at query (db.js:12)" m))
      users_request fresh_response in
  let secret := "getaddrinfo ENOTFOUND db-internal.corp:27017" in
  fired (classify (ThrownError (new_Error "" secret))) = Some RuleUnknown
  /\ (resp_message <$> res_body (reply secret)) = Some secret
  /\ (resp_message <$> res_body (reply "boom")) = Some "boom"
  /\ (resp_message <$> res_body (reply secret))
       <> (resp_message <$> res_body (reply "boom"))
  /\ (resp_message <$> res_body (reply ""))
       = Some "An unexpected error occurred".
Proof. repeat split; discriminate. Qed.

(** ** errorHandler: the stack trace *)

Lemma index_key_not_stack (i : nat) : String.eqb "stack" (index_key i) = false.
Proof. unfold index_key. by destruct (Nat.to_uint i). Qed.

Lemma get_prop_stack_imap (g : nat -> string) (xs : list JsValue) :
  (forall i, String.eqb "stack" (g i) = false) ->
  get_prop "stack" (imap (fun i x => (g i, x)) xs) = None.
Proof.
  revert g. induction xs as [|x xs IH]; intros g Hg; [reflexivity|].
  cbn [imap get_prop]. rewrite Hg.
  apply (IH (g ∘ S)). intros i. apply Hg.
Qed.

(** The details the chain itself produces never carry a [stack] entry;
    only an [AppError]'s own details can. *)
Lemma classify_foreign_details_no_stack (e : ErrorObject) :
  as_AppError e = None ->
  get_prop "stack" (spread (c_details (classify (ThrownError e)))) = None.
Proof.
  destruct e as [c n m s x]. unfold as_AppError, classify. cbn [cls].
  destruct c as [f | errors | path value | |]; intros H; try discriminate H;
    try reflexivity;
    try (repeat (match goal with
                 | |- context [if ?b then _ else _] => destruct b
                 end); reflexivity).
  cbn. apply get_prop_stack_imap, index_key_not_stack.
Qed.

(** C6 (as amended). With [NODE_ENV] equal to [development] the reply's
    details carry the fault's stack under [stack] whenever the fault has a
    non-empty one.  With any other [NODE_ENV] the handler adds nothing:
    the details are exactly those the cascade produced, so the reply has no
    [stack] entry unless the fault is an [AppError] whose own details
    already carry one. *)
Theorem errorHandler_stack_policy
    (NODE_ENV now : string) (err : Thrown) (req : Request) (res : Response) :
  exists b,
    res_body (errorHandler NODE_ENV now err req res) = Some b
    /\ (NODE_ENV = "development" ->
        forall s, stack_of err = Some s ->
          get_prop "stack" (spread (resp_details b)) = Some (JStr s))
    /\ (NODE_ENV <> "development" ->
        resp_details b = c_details (classify err)
        /\ has_stack_field b =
             match err with
             | ThrownError e =>
                 match as_AppError e with
                 | Some f =>
                     bool_decide (is_Some (get_prop "stack" (spread (details f))))
                 | None => false
                 end
             | ThrownOther _ => false
             end).
Proof.
  unfold errorHandler.
  destruct (String.eqb_spec NODE_ENV "development") as [-> | Hne].
  - destruct (stack_of err) as [s|] eqn:Hs; eexists;
      (split; [reflexivity|]); (split; [|done]); intros _ s' [= <-].
    cbn. apply get_set_prop_same.
  - eexists. split; [reflexivity|]. split; [done|]. intros _.
    split; [reflexivity|]. unfold has_stack_field. cbn [resp_details].
    destruct err as [e | n0]; [|reflexivity].
    destruct (as_AppError e) as [f|] eqn:Hf.
    + destruct e as [c n m s x]. unfold as_AppError in Hf. cbn [cls] in Hf.
      destruct c; try discriminate Hf. injection Hf as ->. reflexivity.
    + rewrite (classify_foreign_details_no_stack e Hf).
      apply bool_decide_eq_false. by intros [v Hv].
Qed.

Lemma errorHandler_stack_policy_witness :
  (exists b,
      res_body (errorHandler "development" "2024-01-15T10:30:00.000Z"
                  (ThrownError duplicate_email_error) users_request
                  fresh_response) = Some b
      /\ get_prop "stack" (spread (resp_details b))
           = Some (JStr "MongoServerError: E11000 duplicate key error"))
  /\ (exists b,
         res_body (errorHandler "test" "2024-01-15T10:30:00.000Z"
                     (ThrownError duplicate_email_error) users_request
                     fresh_response) = Some b
         /\ has_stack_field b = false).
Proof.
  split.
  - destruct (errorHandler_stack_policy "development" "2024-01-15T10:30:00.000Z"
                (ThrownError duplicate_email_error) users_request fresh_response)
      as (b & Hb & Hdev & _).
    exists b. split; [exact Hb|]. apply Hdev; reflexivity.
  - destruct (errorHandler_stack_policy "test" "2024-01-15T10:30:00.000Z"
                (ThrownError duplicate_email_error) users_request fresh_response)
      as (b & Hb & _ & Hoff).
    exists b. split; [exact Hb|]. apply Hoff. discriminate.
Defined.

(** C6, counterexample. In production, an operational fault whose caller
    put a [stack] entry into its details is answered with that entry. *)
Lemma errorHandler_stack_field_in_production :
  (resp_details <$>
     res_body (errorHandler "production" "2024-01-15T10:30:00.000Z"
                 (ThrownError exception_with_stack_details) users_request
                 fresh_response))
    = Some (JObj [("stack", JStr "Error: connect ECONNREFUSED 10.0.0.5:27017")])
  /\ (has_stack_field <$>
        res_body (errorHandler "production" "2024-01-15T10:30:00.000Z"
                    (ThrownError exception_with_stack_details) users_request
                    fresh_response))
       = Some true.
Proof. split; reflexivity. Qed.

(** ** errorHandler: duplicate keys *)

(** C7. A foreign fault with [code === 11000] that is neither an
    [AppError] nor a Mongoose validation or cast error is classified by
    the duplicate-key rule: status 409, code [DB_DUPLICATE_KEY] (the
    specification's storage-duplicate-key), in the wire status and in the
    body.  When the fault has a [keyPattern] record the cascade's details
    are [{duplicateFields: Object.keys(keyPattern)}]; the reply carries
    that list under [duplicateFields], and its details are exactly that
    object when no stack is appended. *)
Theorem errorHandler_duplicate_key
    (NODE_ENV now : string) (e : ErrorObject) (req : Request) (res : Response) :
  branch_condition RuleAppError (ThrownError e) = false ->
  branch_condition RuleValidationError (ThrownError e) = false ->
  branch_condition RuleCastError (ThrownError e) = false ->
  code_of e = Some (JNum 11000) ->
  fired (classify (ThrownError e)) = Some RuleDuplicateKey
  /\ res_statusCode (errorHandler NODE_ENV now (ThrownError e) req res) = 409
  /\ taxonomy_name DB_DUPLICATE_KEY = Some "storage-duplicate-key"
  /\ exists b,
       res_body (errorHandler NODE_ENV now (ThrownError e) req res) = Some b
       /\ resp_httpStatus b = 409
       /\ resp_errorCode b = ErrorCodeEnum DB_DUPLICATE_KEY
       /\ forall pattern,
            get_prop "keyPattern" (extra e) = Some (JObj pattern) ->
            c_details (classify (ThrownError e))
              = JObj [("duplicateFields", JArr (map JStr (map fst pattern)))]
            /\ get_prop "duplicateFields" (spread (resp_details b))
                 = Some (JArr (map JStr (map fst pattern)))
            /\ (NODE_ENV <> "development" \/ stack_of (ThrownError e) = None ->
                resp_details b
                  = JObj [("duplicateFields", JArr (map JStr (map fst pattern)))]).
Proof.
  intros H1 H2 H3 Hcode.
  assert (Hc : classify (ThrownError e) =
               {| fired := Some RuleDuplicateKey;
                  c_statusCode := HTTPSTATUS.CONFLICT;
                  c_errorCode := ErrorCodeEnum DB_DUPLICATE_KEY;
                  c_message := "A resource with this value already exists";
                  c_details :=
                    let match_ :=
                      default JUndefined (get_prop "keyPattern" (extra e)) in
                    if truthy match_
                    then JObj [("duplicateFields",
                                JArr (map JStr (Object_keys (spread match_))))]
                    else JUndefined |}).
  { destruct e as [c n m s x]. unfold classify.
    cbn [branch_condition cls] in *. unfold code_of in *. cbn [extra] in *.
    destruct c; try discriminate; rewrite Hcode; reflexivity. }
  unfold errorHandler. rewrite Hc. cbn [fired c_statusCode c_errorCode c_details].
  split; [reflexivity|]. split; [reflexivity|]. split; [reflexivity|].
  destruct (String.eqb_spec NODE_ENV "development") as [-> | Hne];
    [destruct (stack_of (ThrownError e)) as [s|] eqn:Hs|];
    (eexists; split; [reflexivity|]; split; [reflexivity|];
     split; [reflexivity|]; intros pattern Hp; rewrite Hp;
     cbn [default truthy spread Object_keys resp_details];
     split; [reflexivity|]; split; [try reflexivity|]).
  - intros [Hdev | Hnone]; [by destruct Hdev | discriminate Hnone].
  - intros _. reflexivity.
  - intros _. reflexivity.
Qed.

Lemma errorHandler_duplicate_key_witness :
  exists b,
    res_body (errorHandler "production" "2024-01-15T10:30:00.000Z"
                (ThrownError duplicate_email_error) users_request
                fresh_response) = Some b
    /\ resp_httpStatus b = 409
    /\ resp_errorCode b = "DB_DUPLICATE_KEY"
    /\ resp_details b = JObj [("duplicateFields", JArr [JStr "email"])].
Proof.
  destruct (errorHandler_duplicate_key "production" "2024-01-15T10:30:00.000Z"
              duplicate_email_error users_request fresh_response
              eq_refl eq_refl eq_refl eq_refl)
    as (_ & _ & _ & b & Hb & Hs & Hc & Hd).
  exists b. split; [exact Hb|]. split; [exact Hs|]. split; [exact Hc|].
  destruct (Hd [("email", JNum 1)] eq_refl) as (_ & _ & Hex).
  apply Hex. left. discriminate.
Defined.

(** ** The wire status and the body agree *)

(** C10. For every thrown value and every unmatched request, the status
    set on the response equals the [httpStatus] field of the JSON body,
    for [errorHandler] and for [notFoundHandler] alike. *)
Theorem wire_status_matches_body
    (NODE_ENV now : string) (err : Thrown) (req : Request) (res : Response) :
  (exists b,
      res_body (errorHandler NODE_ENV now err req res) = Some b
      /\ resp_httpStatus b
           = res_statusCode (errorHandler NODE_ENV now err req res))
  /\ (exists b,
         res_body (notFoundHandler now req res) = Some b
         /\ resp_httpStatus b = res_statusCode (notFoundHandler now req res)).
Proof.
  split.
  - destruct (errorHandler_status NODE_ENV now err req res)
      as (Hs & b & Hb & Hh & _).
    exists b. split; [exact Hb | by rewrite Hs, Hh].
  - eexists. split; reflexivity.
Qed.

(** ** Process handlers *)

Lemma initializeProcessHandlers_listeners (ev : ProcessEvent) (p : Process) :
  listeners_of ev (initializeProcessHandlers p)
    = (listeners_of ev p ++ [listener_for ev])%list.
Proof.
  unfold listeners_of, initializeProcessHandlers, handleSIGINT, handleSIGTERM,
    handleUncaughtException, handleUnhandledRejection, process_on.
  cbn [listeners]. rewrite <- !app_assoc. cbn [app].
  rewrite filter_app, map_app. f_equal. by destruct ev.
Qed.

Lemma initializeProcessHandlers_rest (p : Process) :
  timers (initializeProcessHandlers p) = timers p
  /\ exited (initializeProcessHandlers p) = exited p
  /\ invoked (initializeProcessHandlers p) = invoked p.
Proof. repeat split. Qed.

Lemma initialized_listeners (ev : ProcessEvent) (n : nat) :
  listeners_of ev (initialized n) = replicate n (listener_for ev).
Proof.
  induction n as [|n IH]; [reflexivity|].
  change (initialized (S n)) with (initializeProcessHandlers (initialized n)).
  by rewrite initializeProcessHandlers_listeners, IH, replicate_S_end.
Qed.

Lemma initialized_rest (n : nat) :
  timers (initialized n) = [] /\ exited (initialized n) = None
  /\ invoked (initialized n) = [].
Proof.
  induction n as [|n IH]; [repeat split|].
  change (initialized (S n)) with (initializeProcessHandlers (initialized n)).
  destruct (initializeProcessHandlers_rest (initialized n)) as (-> & -> & ->).
  exact IH.
Qed.

(** The rejection listener never ends the process, so every registered
    copy runs. *)
Lemma run_rejection_listeners (NODE_ENV : string) (n : nat) (p : Process) :
  exited p = None ->
  let p' := run_listeners NODE_ENV (replicate n RejectionListener) p in
  invoked p' = (invoked p ++ replicate n RejectionListener)%list
  /\ timers p' = (timers p
                  ++ (if String.eqb NODE_ENV "production"
                      then replicate n 1000 else []))%list
  /\ exited p' = None.
Proof.
  revert p. induction n as [|n IH]; intros p Hp; cbn zeta.
  - cbn. destruct (String.eqb NODE_ENV "production"); by rewrite !app_nil_r.
  - cbn [replicate run_listeners]. rewrite Hp.
    specialize (IH (run_listener NODE_ENV RejectionListener p)).
    cbn zeta in IH.
    destruct IH as (Hi & Ht & He).
    { unfold run_listener, listener_body.
      by destruct (String.eqb NODE_ENV "production"). }
    rewrite Hi, Ht, He. unfold run_listener, listener_body.
    destruct (String.eqb NODE_ENV "production"); cbn;
      rewrite <- ?app_assoc; repeat split.
Qed.

(** The other three listeners end the process, so only the first
    registered copy runs. *)
Lemma run_exiting_listeners (NODE_ENV : string) (ev : ProcessEvent)
    (code : Z) (n : nat) (p : Process) :
  exit_status ev = Some code ->
  exited p = None ->
  let p' := run_listeners NODE_ENV (replicate (S n) (listener_for ev)) p in
  invoked p' = (invoked p ++ [listener_for ev])%list
  /\ timers p' = timers p
  /\ exited p' = Some code.
Proof.
  intros Hev Hp. cbn zeta. cbn [replicate run_listeners]. rewrite Hp.
  assert (He : exited (run_listener NODE_ENV (listener_for ev) p) = Some code).
  { destruct ev; try discriminate Hev; injection Hev as <-; reflexivity. }
  assert (Hrest : invoked (run_listener NODE_ENV (listener_for ev) p)
                    = (invoked p ++ [listener_for ev])%list
                  /\ timers (run_listener NODE_ENV (listener_for ev) p) = timers p).
  { destruct ev; try discriminate Hev; split; reflexivity. }
  destruct n; cbn [replicate run_listeners]; [|rewrite He]; tauto.
Qed.

Lemma times_fired_replicate (l : Listener) (n : nat) :
  length (filter (fun x => x = l) (replicate n l)) = n.
Proof.
  induction n as [|n IH]; [reflexivity|].
  cbn [replicate]. rewrite filter_cons_True by reflexivity. simpl. by rewrite IH.
Qed.

(** C3 (as amended). [initializeProcessHandlers] is not idempotent: each
    call registers one more listener for every one of the four events, so
    after [n] calls an event has [n] listeners.  An unhandled rejection
    then runs all [n] of them (in production each schedules its own exit
    timer), so its handler fires exactly once only after a single call.
    For an uncaught exception, SIGTERM and SIGINT the first listener ends
    the process, so after one or more calls the handler runs exactly once
    and the process exits with status 1, 0 and 0. *)
Theorem initializeProcessHandlers_accumulates
    (NODE_ENV : string) (n : nat) (ev : ProcessEvent) :
  listeners_of ev (initialized n) = replicate n (listener_for ev)
  /\ times_fired RejectionListener
       (emit NODE_ENV unhandledRejection (initialized n)) = n
  /\ timers (emit NODE_ENV unhandledRejection (initialized n))
       = (if String.eqb NODE_ENV "production" then replicate n 1000 else [])
  /\ exited (emit NODE_ENV unhandledRejection (initialized n)) = None
  /\ match ev with
     | unhandledRejection => True
     | _ =>
         times_fired (listener_for ev) (emit NODE_ENV ev (initialized (S n))) = 1%nat
         /\ exited (emit NODE_ENV ev (initialized (S n))) = exit_status ev
     end.
Proof.
  destruct (initialized_rest n) as (Ht & He & Hi).
  destruct (initialized_rest (S n)) as (Ht' & He' & Hi').
  split; [apply initialized_listeners|].
  unfold emit, times_fired.
  rewrite !initialized_listeners.
  destruct (run_rejection_listeners NODE_ENV n (initialized n) He)
    as (Ri & Rt & Re).
  cbn [listener_for]. rewrite Ri, Rt, Re, Hi, Ht. cbn [app].
  split; [apply times_fired_replicate|]. split; [reflexivity|].
  split; [reflexivity|].
  destruct ev; [exact I | | |];
    match goal with
    | |- context [exit_status ?e] =>
        destruct (run_exiting_listeners NODE_ENV e _ n (initialized (S n))
                    eq_refl He') as (Xi & _ & Xe);
        rewrite Xi, Xe, Hi'; split; reflexivity
    end.
Qed.

(** C3, counterexample. A second call is neither refused nor without
    effect: it leaves two listeners per event, and one unhandled rejection
    in production then runs the handler twice and schedules two exits. *)
Lemma initializeProcessHandlers_twice_double_fires :
  initializeProcessHandlers (initialized 1) <> initialized 1
  /\ listeners_of unhandledRejection (initialized 2)
       = [RejectionListener; RejectionListener]
  /\ times_fired RejectionListener
       (emit "production" unhandledRejection (initialized 2)) = 2%nat
  /\ timers (emit "production" unhandledRejection (initialized 2))
       = [1000; 1000].
Proof. repeat split. discriminate. Qed.

(** * Further properties *)

(** ** The error codes *)

(** No two members of [ErrorCodeEnum] share a value: the [errorCode] of a
    reply names one member. *)
Theorem ErrorCodeEnum_inj (c1 c2 : ErrorCodeEnumType) :
  ErrorCodeEnum c1 = ErrorCodeEnum c2 -> c1 = c2.
Proof.
  destruct c1; destruct c2; intros H; try reflexivity;
    exfalso; vm_compute in H; discriminate H.
Qed.

Lemma ErrorCodeEnum_inj_witness : AUTH_INVALID_TOKEN = AUTH_INVALID_TOKEN.
Proof. apply (ErrorCodeEnum_inj AUTH_INVALID_TOKEN AUTH_INVALID_TOKEN). reflexivity. Defined.

(** ** errorHandler: what each branch answers *)

(** The branch taken is the one that fires. *)
Lemma fires_classify (r : Rule) (e : ErrorObject) :
  fires r (ThrownError e) -> fired (classify (ThrownError e)) = Some r.
Proof.
  intros F. destruct (classify_fires e) as (r0 & H0 & F0).
  rewrite H0. f_equal. exact (fires_unique _ _ _ F0 F).
Qed.

(** Without an appended stack the reply is the classification, the
    fault's name, the clock reading and the request's URL. *)
Lemma errorHandler_body_plain (NODE_ENV now : string) (err : Thrown)
    (req : Request) (res : Response) :
  NODE_ENV <> "development" \/ stack_of err = None ->
  errorHandler NODE_ENV now err req res =
    {| res_statusCode := c_statusCode (classify err);
       res_body := Some
         {| resp_errorName := errorName_of err;
            resp_errorCode := c_errorCode (classify err);
            resp_httpStatus := c_statusCode (classify err);
            resp_message := c_message (classify err);
            resp_details := c_details (classify err);
            resp_timestamp := now;
            resp_path := originalUrl req |} |}.
Proof.
  intros H. unfold errorHandler.
  destruct (String.eqb_spec NODE_ENV "development") as [-> | Hne];
    [|reflexivity].
  destruct H as [H | H]; [by destruct H | by rewrite H].
Qed.

(** Resolve the chain from the knowledge that rule [r] fires. *)
Ltac chain_by F :=
  let Hc := fresh "Hc" in
  let He := fresh "He" in
  destruct F as [Hc He];
  match goal with
  | e : ErrorObject |- _ =>
      let c := fresh "c" in
      destruct e as [c ? ? ? ?]; unfold classify; cbn [cls];
      destruct c;
      try (exfalso;
           let X := fresh in
           pose proof (He RuleAppError ltac:(simpl; lia)) as X;
           simpl in X; discriminate X);
      try (exfalso;
           let X := fresh in
           pose proof (He RuleValidationError ltac:(simpl; lia)) as X;
           simpl in X; discriminate X);
      try (exfalso;
           let X := fresh in
           pose proof (He RuleCastError ltac:(simpl; lia)) as X;
           simpl in X; discriminate X);
      try (exfalso; simpl in Hc; discriminate Hc);
      repeat match goal with
             | |- context [if branch_condition ?r ?err then _ else _] =>
                 first [ rewrite (He r ltac:(simpl; lia)) | rewrite Hc ]
             end
  end.

Ltac fires_by_computation :=
  split; [reflexivity |
          let r' := fresh in let H := fresh in
          intros r' H; destruct r'; simpl in H; try lia; reflexivity].

(** An operational fault is answered with its own status, code, message
    and details, unchanged, whatever else the object carries. *)
Theorem errorHandler_app_error_verbatim
    (NODE_ENV now : string) (e : ErrorObject) (f : AppErrorFields)
    (req : Request) (res : Response) :
  as_AppError e = Some f ->
  NODE_ENV <> "development" ->
  errorHandler NODE_ENV now (ThrownError e) req res =
    {| res_statusCode := statusCode f;
       res_body := Some
         {| resp_errorName := str_or (name e) "Error";
            resp_errorCode := ErrorCodeEnum (errorCode f);
            resp_httpStatus := statusCode f;
            resp_message := message e;
            resp_details := details f;
            resp_timestamp := now;
            resp_path := originalUrl req |} |}.
Proof.
  intros Hf Hne. rewrite errorHandler_body_plain by (by left).
  destruct e as [c n m s x]. unfold as_AppError in Hf. cbn [cls] in Hf.
  destruct c; try discriminate Hf. injection Hf as ->. reflexivity.
Qed.

Lemma errorHandler_app_error_verbatim_witness :
  res_body (errorHandler "production" "2024-01-15T10:30:00.000Z"
              (ThrownError user_not_found_exception) users_request
              fresh_response)
  = Some {| resp_errorName := "NotFoundException";
            resp_errorCode := "USR_404";
            resp_httpStatus := 404;
            resp_message := "User with ID 42 not found";
            resp_details := JUndefined;
            resp_timestamp := "2024-01-15T10:30:00.000Z";
            resp_path := "/api/v1/users" |}.
Proof.
  rewrite (errorHandler_app_error_verbatim "production"
             "2024-01-15T10:30:00.000Z" user_not_found_exception
             {| isOperational := true; timestamp := "2024-01-15T10:30:00.000Z";
                statusCode := 404; errorCode := USR_404; details := JUndefined |}
             users_request fresh_response);
    [reflexivity | reflexivity | discriminate].
Defined.

(** A Mongoose validation error that is not an [AppError] is answered 400
    [DB_VALIDATION_ERROR] "Validation failed", with one [{field, message}]
    entry per failed path, in the order of [err.errors]. *)
Theorem errorHandler_validation_error
    (e : ErrorObject) (errors : list (string * ValidatorError)) :
  cls e = InstValidationError errors ->
  let c := classify (ThrownError e) in
  fired c = Some RuleValidationError
  /\ c_statusCode c = 400
  /\ c_errorCode c = "DB_VALIDATION_ERROR"
  /\ c_message c = "Validation failed"
  /\ exists items,
       c_details c = JArr items
       /\ length items = length errors
       /\ forall i k v, errors !! i = Some (k, v) ->
            items !! i = Some (JObj [("field", JStr (ve_path v));
                                     ("message", JStr (ve_message v))]).
Proof.
  intros Hc. destruct e as [c0 n m s x]. cbn [cls] in Hc. subst c0.
  cbn. repeat split.
  eexists. split; [reflexivity|]. split.
  - by rewrite !length_map.
  - intros i k v Hi. rewrite !list_lookup_fmap, Hi. reflexivity.
Qed.

Lemma errorHandler_validation_error_witness :
  c_details (classify (ThrownError user_validation_error))
  = JArr [JObj [("field", JStr "email");
                ("message", JStr "Path `email` is required.")];
          JObj [("field", JStr "age");
                ("message",
                 JStr "Path `age` (-1) is less than minimum allowed value (0).")]].
Proof.
  destruct (errorHandler_validation_error user_validation_error _ eq_refl)
    as (_ & _ & _ & _ & items & Hd & _ & _).
  rewrite Hd. injection Hd as <-. reflexivity.
Defined.

(** A Mongoose cast error is answered 400 [VAL_INVALID_FORMAT] with the
    message "Invalid <path>: <value>" and no details. *)
Theorem errorHandler_cast_error
    (e : ErrorObject) (path : string) (value : JsValue) :
  cls e = InstCastError path value ->
  let c := classify (ThrownError e) in
  fired c = Some RuleCastError
  /\ c_statusCode c = 400
  /\ c_errorCode c = "VAL_INVALID_FORMAT"
  /\ c_message c = "Invalid " ++ path ++ ": " ++ to_string value
  /\ c_details c = JUndefined.
Proof.
  intros Hc. destruct e as [c0 n m s x]. cbn [cls] in Hc. subst c0.
  repeat split.
Qed.

Lemma errorHandler_cast_error_witness :
  c_message (classify (ThrownError bad_id_cast_error)) = "Invalid _id: abc".
Proof.
  destruct (errorHandler_cast_error bad_id_cast_error "_id" (JStr "abc") eq_refl)
    as (_ & _ & _ & Hm & _).
  rewrite Hm. reflexivity.
Defined.

(** A malformed JSON body (a [SyntaxError] with a [body], no [code] of
    11000) is answered 400 [VAL_400] with a fixed message: the parser's own
    message does not reach the reply. *)
Theorem errorHandler_json_syntax
    (NODE_ENV now : string) (e : ErrorObject) (req : Request) (res : Response) :
  fires RuleJsonSyntax (ThrownError e) ->
  res_statusCode (errorHandler NODE_ENV now (ThrownError e) req res) = 400
  /\ exists b,
       res_body (errorHandler NODE_ENV now (ThrownError e) req res) = Some b
       /\ resp_httpStatus b = 400
       /\ resp_errorCode b = "VAL_400"
       /\ resp_message b = "Invalid JSON in request body".
Proof.
  intros F.
  destruct (errorHandler_status NODE_ENV now (ThrownError e) req res)
    as (Hs & b & Hb & Hh & Hcode & Hm & _).
  rewrite Hs. split; [|exists b; rewrite Hh, Hcode, Hm; split; [exact Hb|]];
    clear Hs Hb Hh Hcode Hm; chain_by F; repeat split.
Qed.

Lemma errorHandler_json_syntax_witness :
  exists b,
    res_body (errorHandler "production" "2024-01-15T10:30:00.000Z"
                (ThrownError malformed_json_error) users_request
                fresh_response) = Some b
    /\ resp_httpStatus b = 400
    /\ resp_message b = "Invalid JSON in request body".
Proof.
  destruct (errorHandler_json_syntax "production" "2024-01-15T10:30:00.000Z"
              malformed_json_error users_request fresh_response)
    as (_ & b & Hb & Hh & _ & Hm); [fires_by_computation|].
  exists b. by repeat split.
Defined.

(** A token error, recognised by its [name] once the five earlier rules
    have passed, is answered 401 [AUTH_INVALID_TOKEN]; the message tells an
    expired token from any other invalid one, and the library's message is
    not used. *)
Theorem errorHandler_jwt
    (NODE_ENV now : string) (e : ErrorObject) (req : Request) (res : Response) :
  fires RuleJwt (ThrownError e) ->
  res_statusCode (errorHandler NODE_ENV now (ThrownError e) req res) = 401
  /\ exists b,
       res_body (errorHandler NODE_ENV now (ThrownError e) req res) = Some b
       /\ resp_httpStatus b = 401
       /\ resp_errorCode b = "AUTH_INVALID_TOKEN"
       /\ (name e = "TokenExpiredError" ->
           resp_message b = "Your session has expired. Please log in again")
       /\ (name e = "JsonWebTokenError" ->
           resp_message b = "Invalid authentication token").
Proof.
  intros F.
  destruct (errorHandler_status NODE_ENV now (ThrownError e) req res)
    as (Hs & b & Hb & Hh & Hcode & Hm & _).
  rewrite Hs. split; [|exists b; rewrite Hh, Hcode, Hm; split; [exact Hb|]];
    clear Hs Hb Hh Hcode Hm; chain_by F; repeat split;
    cbn [name]; intros ->; reflexivity.
Qed.

Lemma errorHandler_jwt_witness :
  (resp_message <$>
     res_body (errorHandler "production" "2024-01-15T10:30:00.000Z"
                 (ThrownError token_expired_error) users_request
                 fresh_response))
    = Some "Your session has expired. Please log in again"
  /\ (resp_message <$>
        res_body (errorHandler "production" "2024-01-15T10:30:00.000Z"
                    (ThrownError token_malformed_error) users_request
                    fresh_response))
       = Some "Invalid authentication token".
Proof.
  split.
  - destruct (errorHandler_jwt "production" "2024-01-15T10:30:00.000Z"
                token_expired_error users_request fresh_response)
      as (_ & b & Hb & _ & _ & Hexp & _); [fires_by_computation|].
    rewrite Hb. cbn. f_equal. apply Hexp. reflexivity.
  - destruct (errorHandler_jwt "production" "2024-01-15T10:30:00.000Z"
                token_malformed_error users_request fresh_response)
      as (_ & b & Hb & _ & _ & _ & Hinv); [fires_by_computation|].
    rewrite Hb. cbn. f_equal. apply Hinv. reflexivity.
Defined.

(** A foreign error carrying [statusCode] 429 that no earlier rule takes
    is answered 429 [RATE_429] with a fixed message. *)
Theorem errorHandler_rate_limit
    (NODE_ENV now : string) (e : ErrorObject) (req : Request) (res : Response) :
  fires RuleRateLimit (ThrownError e) ->
  res_statusCode (errorHandler NODE_ENV now (ThrownError e) req res) = 429
  /\ exists b,
       res_body (errorHandler NODE_ENV now (ThrownError e) req res) = Some b
       /\ resp_httpStatus b = 429
       /\ resp_errorCode b = "RATE_429"
       /\ resp_message b = "Too many requests. Please try again later".
Proof.
  intros F.
  destruct (errorHandler_status NODE_ENV now (ThrownError e) req res)
    as (Hs & b & Hb & Hh & Hcode & Hm & _).
  rewrite Hs. split; [|exists b; rewrite Hh, Hcode, Hm; split; [exact Hb|]];
    clear Hs Hb Hh Hcode Hm; chain_by F; repeat split.
Qed.

Lemma errorHandler_rate_limit_witness :
  res_statusCode (errorHandler "production" "2024-01-15T10:30:00.000Z"
                    (ThrownError rate_limited_error) users_request
                    fresh_response) = 429.
Proof.
  apply (errorHandler_rate_limit "production" "2024-01-15T10:30:00.000Z"
           rate_limited_error users_request fresh_response).
  fires_by_computation.
Defined.

(** An upload error (one of multer's three [LIMIT_*] codes) that no
    earlier rule takes is answered 400 [FILE_UPLOAD_ERROR]; only
    [LIMIT_FILE_SIZE] gets the message about the size, the other two the
    general one. *)
Theorem errorHandler_upload
    (NODE_ENV now : string) (e : ErrorObject) (req : Request) (res : Response) :
  fires RuleUpload (ThrownError e) ->
  res_statusCode (errorHandler NODE_ENV now (ThrownError e) req res) = 400
  /\ exists b,
       res_body (errorHandler NODE_ENV now (ThrownError e) req res) = Some b
       /\ resp_httpStatus b = 400
       /\ resp_errorCode b = "FILE_UPLOAD_ERROR"
       /\ (code_of e = Some (JStr "LIMIT_FILE_SIZE") ->
           resp_message b = "File size exceeds the maximum allowed limit")
       /\ (code_of e <> Some (JStr "LIMIT_FILE_SIZE") ->
           resp_message b = "File upload error").
Proof.
  intros F.
  destruct (errorHandler_status NODE_ENV now (ThrownError e) req res)
    as (Hs & b & Hb & Hh & Hcode & Hm & _).
  rewrite Hs. split; [|exists b; rewrite Hh, Hcode, Hm; split; [exact Hb|]];
    clear Hs Hb Hh Hcode Hm; chain_by F; repeat split;
    unfold code_of; cbn [extra c_message].
  all: try (intros ->; reflexivity).
  all: intros Hne;
    match goal with
    | |- context [get_prop "code" ?x] =>
        destruct (get_prop "code" x) as [[| | | |t| |]|]; try reflexivity
    end;
    cbn; destruct (String.eqb_spec t "LIMIT_FILE_SIZE") as [->|];
    [by destruct Hne | reflexivity].
Qed.

Lemma errorHandler_upload_witness :
  (resp_message <$>
     res_body (errorHandler "production" "2024-01-15T10:30:00.000Z"
                 (ThrownError file_too_large_error) users_request
                 fresh_response))
    = Some "File size exceeds the maximum allowed limit"
  /\ (resp_message <$>
        res_body (errorHandler "production" "2024-01-15T10:30:00.000Z"
                    (ThrownError unexpected_file_error) users_request
                    fresh_response))
       = Some "File upload error".
Proof.
  split.
  - destruct (errorHandler_upload "production" "2024-01-15T10:30:00.000Z"
                file_too_large_error users_request fresh_response)
      as (_ & b & Hb & _ & _ & Hsize & _); [fires_by_computation|].
    rewrite Hb. cbn. f_equal. apply Hsize. reflexivity.
  - destruct (errorHandler_upload "production" "2024-01-15T10:30:00.000Z"
                unexpected_file_error users_request fresh_response)
      as (_ & b & Hb & _ & _ & _ & Hother); [fires_by_computation|].
    rewrite Hb. cbn. f_equal. apply Hother. discriminate.
Defined.

(** A foreign error that no earlier rule takes and whose [name] is one of
    [ECONNREFUSED], [ETIMEDOUT], [ENOTFOUND] is answered 503
    [EXT_SERVICE_UNAVAILABLE] with a fixed message. *)
Theorem errorHandler_network
    (NODE_ENV now : string) (e : ErrorObject) (req : Request) (res : Response) :
  fires RuleNetwork (ThrownError e) ->
  res_statusCode (errorHandler NODE_ENV now (ThrownError e) req res) = 503
  /\ exists b,
       res_body (errorHandler NODE_ENV now (ThrownError e) req res) = Some b
       /\ resp_httpStatus b = 503
       /\ resp_errorCode b = "EXT_SERVICE_UNAVAILABLE"
       /\ resp_message b
            = "External service is unavailable. Please try again later".
Proof.
  intros F.
  destruct (errorHandler_status NODE_ENV now (ThrownError e) req res)
    as (Hs & b & Hb & Hh & Hcode & Hm & _).
  rewrite Hs. split; [|exists b; rewrite Hh, Hcode, Hm; split; [exact Hb|]];
    clear Hs Hb Hh Hcode Hm; chain_by F; repeat split.
Qed.

Lemma errorHandler_network_witness :
  res_statusCode (errorHandler "production" "2024-01-15T10:30:00.000Z"
                    (ThrownError named_connection_refused) users_request
                    fresh_response) = 503.
Proof.
  apply (errorHandler_network "production" "2024-01-15T10:30:00.000Z"
           named_connection_refused users_request fresh_response).
  fires_by_computation.
Defined.

(** The network rule looks at [err.name] only: a fault that is not an
    [AppError] is answered 503 only if its name is one of the three, so a
    system error that carries the condition in [err.code] under the name
    [Error] is not. *)
Theorem errorHandler_503_needs_the_name (e : ErrorObject) :
  as_AppError e = None ->
  c_statusCode (classify (ThrownError e)) = 503 ->
  name e = "ECONNREFUSED" \/ name e = "ETIMEDOUT" \/ name e = "ENOTFOUND".
Proof.
  destruct e as [c n m s x]. unfold as_AppError, classify. cbn [cls name].
  destruct c as [f | errors | path value | |]; intros Ha Hs;
    try discriminate Ha; try discriminate Hs;
    repeat (match type of Hs with
            | context [if branch_condition RuleNetwork ?err then _ else _] =>
                destruct (branch_condition RuleNetwork err) eqn:E
            | context [if ?b then _ else _] =>
                destruct b; try discriminate Hs
            end);
    try discriminate Hs.
  all: cbn in E; apply orb_prop in E as [E | E].
  all: try apply orb_prop in E as [E | E].
  all: apply String.eqb_eq in E; auto.
Qed.

Lemma errorHandler_503_needs_the_name_witness :
  name named_connection_refused = "ECONNREFUSED"
  \/ name named_connection_refused = "ETIMEDOUT"
  \/ name named_connection_refused = "ENOTFOUND".
Proof.
  apply (errorHandler_503_needs_the_name named_connection_refused);
    reflexivity.
Defined.

(** An [Error] that none of the nine specific rules takes is answered 500
    [SRV_500] under its own name, with its own message when that is not
    empty and the generic message otherwise. *)
Theorem errorHandler_unknown
    (NODE_ENV now : string) (e : ErrorObject) (req : Request) (res : Response) :
  fires RuleUnknown (ThrownError e) ->
  res_statusCode (errorHandler NODE_ENV now (ThrownError e) req res) = 500
  /\ exists b,
       res_body (errorHandler NODE_ENV now (ThrownError e) req res) = Some b
       /\ resp_httpStatus b = 500
       /\ resp_errorCode b = "SRV_500"
       /\ resp_errorName b = str_or (name e) "Error"
       /\ (message e <> "" -> resp_message b = message e)
       /\ (message e = "" -> resp_message b = "An unexpected error occurred").
Proof.
  intros F.
  destruct (errorHandler_status NODE_ENV now (ThrownError e) req res)
    as (Hs & b & Hb & Hh & Hcode & Hm & Hn & _).
  rewrite Hs.
  split; [|exists b; rewrite Hh, Hcode, Hm, Hn; split; [exact Hb|]];
    clear Hs Hb Hh Hcode Hm Hn; chain_by F; repeat split;
    cbn [message c_message unassigned]; unfold str_or.
  all: try (intros Hne;
            match goal with
            | |- context [String.eqb ?m ""] =>
                by destruct (String.eqb_spec m "")
            end).
  all: intros ->; reflexivity.
Qed.

Lemma errorHandler_unknown_witness :
  exists b,
    res_body (errorHandler "production" "2024-01-15T10:30:00.000Z"
                (ThrownError node_connection_refused) users_request
                fresh_response) = Some b
    /\ resp_httpStatus b = 500
    /\ resp_message b = "connect ECONNREFUSED 127.0.0.1:27017".
Proof.
  destruct (errorHandler_unknown "production" "2024-01-15T10:30:00.000Z"
              node_connection_refused users_request fresh_response)
    as (_ & b & Hb & Hh & _ & _ & Hm & _); [fires_by_computation|].
  exists b. split; [exact Hb|]. split; [exact Hh|]. apply Hm. discriminate.
Defined.

(** A thrown value that is not an [Error] is answered 500 [SRV_500] with
    the generic message, under its own [name] if it has one, without
    details and, in every configuration, without a stack. *)
Theorem errorHandler_non_error
    (NODE_ENV now : string) (n : option string) (req : Request) (res : Response) :
  errorHandler NODE_ENV now (ThrownOther n) req res =
    {| res_statusCode := 500;
       res_body := Some
         {| resp_errorName := str_or (default "" n) "Error";
            resp_errorCode := "SRV_500";
            resp_httpStatus := 500;
            resp_message := "An unexpected error occurred";
            resp_details := JUndefined;
            resp_timestamp := now;
            resp_path := originalUrl req |} |}.
Proof. unfold errorHandler. by destruct (String.eqb NODE_ENV "development"). Qed.

(** ** errorHandler: the details *)

(** Outside development a foreign fault's reply has details only from the
    validation rule, or from the duplicate-key rule when the fault has a
    truthy [keyPattern]. *)
Theorem errorHandler_details_only_from_two_rules
    (NODE_ENV now : string) (e : ErrorObject) (req : Request) (res : Response) :
  as_AppError e = None ->
  NODE_ENV <> "development" ->
  exists b,
    res_body (errorHandler NODE_ENV now (ThrownError e) req res) = Some b
    /\ (resp_details b <> JUndefined ->
        fired (classify (ThrownError e)) = Some RuleValidationError
        \/ (fired (classify (ThrownError e)) = Some RuleDuplicateKey
            /\ truthy (default JUndefined (get_prop "keyPattern" (extra e)))
               = true)).
Proof.
  intros Ha Hne. rewrite errorHandler_body_plain by (by left).
  eexists. split; [reflexivity|]. cbn [resp_details].
  destruct e as [c n m s x]. unfold as_AppError in Ha. unfold classify.
  cbn [cls extra] in *.
  destruct c as [f | errors | path value | |]; try discriminate Ha;
    try (by left); try (intros H; by destruct H);
    (destruct (branch_condition RuleDuplicateKey _);
     [cbn [c_details fired];
      destruct (truthy (default JUndefined (get_prop "keyPattern" x)));
      [by right | intros H; by destruct H]
     | repeat (match goal with
               | |- context [if ?b then _ else _] => destruct b
               end);
       intros H; by destruct H]).
Qed.

Lemma errorHandler_details_only_from_two_rules_witness :
  exists b,
    res_body (errorHandler "production" "2024-01-15T10:30:00.000Z"
                (ThrownError duplicate_email_error) users_request
                fresh_response) = Some b
    /\ (fired (classify (ThrownError duplicate_email_error))
          = Some RuleValidationError
        \/ (fired (classify (ThrownError duplicate_email_error))
              = Some RuleDuplicateKey
            /\ truthy (default JUndefined
                         (get_prop "keyPattern" (extra duplicate_email_error)))
               = true)).
Proof.
  destruct (errorHandler_details_only_from_two_rules "production"
              "2024-01-15T10:30:00.000Z" duplicate_email_error users_request
              fresh_response) as (b & Hb & Hd); [reflexivity | discriminate |].
  exists b. split; [exact Hb|]. apply Hd.
  injection Hb as <-. discriminate.
Defined.

Lemma set_prop_absent (k : string) (v : JsValue) (ps : list (string * JsValue)) :
  get_prop k ps = None -> set_prop k v ps = (ps ++ [(k, v)])%list.
Proof.
  induction ps as [|[k' v'] ps IH]; simpl; [done|].
  destruct (String.eqb k k'); [discriminate|].
  intros H. by rewrite IH.
Qed.

(** In development the stack is merged into the details by an object
    spread, so the array of field errors of a Mongoose validation error
    turns into an object keyed "0", "1", ... with [stack] last; in every
    other configuration it stays the array. *)
Theorem errorHandler_validation_details_shape
    (NODE_ENV now : string) (e : ErrorObject)
    (errors : list (string * ValidatorError)) (s : string)
    (req : Request) (res : Response) :
  cls e = InstValidationError errors ->
  stack e = Some s ->
  s <> "" ->
  exists b items,
    res_body (errorHandler NODE_ENV now (ThrownError e) req res) = Some b
    /\ validation_details errors = JArr items
    /\ (NODE_ENV = "development" ->
        resp_details b = JObj (indexed items ++ [("stack", JStr s)])%list)
    /\ (NODE_ENV <> "development" -> resp_details b = JArr items).
Proof.
  intros Hc Hs Hne. destruct e as [c n m st x]. cbn [cls stack] in *. subst.
  unfold errorHandler, stack_of. cbn [stack].
  destruct (String.eqb_spec s "") as [|_]; [contradiction|].
  destruct (String.eqb_spec NODE_ENV "development") as [-> | Hdev];
    eexists; eexists; (split; [reflexivity|]); (split; [reflexivity|]); split.
  - intros _.
    cbn [resp_details c_details classify cls validation_details spread].
    f_equal. apply set_prop_absent.
    apply get_prop_stack_imap, index_key_not_stack.
  - intros H. by destruct H.
  - intros H. by destruct Hdev.
  - intros _. reflexivity.
Qed.

Lemma errorHandler_validation_details_shape_witness :
  (resp_details <$>
     res_body (errorHandler "development" "2024-01-15T10:30:00.000Z"
                 (ThrownError user_validation_error) users_request
                 fresh_response))
  = Some (JObj
            [("0", JObj [("field", JStr "email");
                         ("message", JStr "Path `email` is required.")]);
             ("1", JObj [("field", JStr "age");
                         ("message",
                          JStr "Path `age` (-1) is less than minimum allowed value (0).")]);
             ("stack", JStr "ValidationError: User validation failed")]).
Proof.
  destruct (errorHandler_validation_details_shape "development"
              "2024-01-15T10:30:00.000Z" user_validation_error _
              "ValidationError: User validation failed" users_request
              fresh_response eq_refl eq_refl)
    as (b & items & Hb & Hi & Hdev & _); [discriminate|].
  rewrite Hb. cbn [fmap option_fmap option_map]. f_equal.
  rewrite Hdev by reflexivity. injection Hi as <-. reflexivity.
Defined.

(** ** loadEnv *)

Lemma Logged_bind_returned {A B : Type} (k : A -> Logged B)
    (l : list string) (a : A) :
  mbind k ((l, Returned a) : Logged A) = ((l ++ (k a).1)%list, (k a).2).
Proof. unfold mbind, Logged_bind. by destruct (k a). Qed.

Lemma Logged_bind_threw {A B : Type} (k : A -> Logged B)
    (l : list string) (m : string) :
  mbind k ((l, Threw m) : Logged A) = (l, Threw m).
Proof. reflexivity. Qed.

(** One call of [getEnv], by whether the entry is acceptable. *)
Lemma getEnv_cases (env : gmap string string) (k : string) (d : option string) :
  let line :=
    if bool_decide (env !! "NODE_ENV" = Some "production") then []
    else ["Env " ++ k ++ ": " ++ show_opt (chosen_value env k d)] in
  (entry_ok env (k, d) = true
   /\ exists v, chosen_value env k d = Some v /\ v <> ""
                /\ getEnv env k d = (line, Returned v))
  \/ (entry_ok env (k, d) = false
      /\ getEnv env k d = (line, Threw ("Missing env variable: " ++ k))).
Proof.
  cbn zeta. unfold entry_ok. cbn [fst snd].
  rewrite (surjective_pairing (getEnv env k d)).
  rewrite getEnv_console, getEnv_outcome.
  destruct (chosen_value env k d) as [v|]; [|by right].
  destruct (String.eqb_spec v "") as [->|Hv]; [by right|].
  left. split; [done|]. by exists v.
Qed.

Ltac env_step env k d :=
  let Hok := fresh "Hok" in
  let v := fresh "v" in
  let Hch := fresh "Hch" in
  let Hv := fresh "Hv" in
  let Hg := fresh "Hg" in
  destruct (getEnv_cases env k d) as [(Hok & v & Hch & Hv & Hg) | (Hok & Hg)];
  cbn zeta in Hg; rewrite Hg, ?Hok;
  [rewrite Logged_bind_returned | rewrite Logged_bind_threw].

Ltac env_steps env :=
  env_step env "PORT" (Some "8000");
  [env_step env "NODE_ENV" (Some "development");
   [env_step env "BASE_PATH" (Some "/api/v1");
    [env_step env "FRONTEND_ORIGIN" (Some "http://localhost:3000");
     [env_step env "MONGO_URI" (Some "mongodb://localhost:27017/database_name");
      [env_step env "JWT_SECRET" (@None string);
       [env_step env "JWT_EXPIRES_IN" (Some "15m");
        [env_step env "JWT_REFRESH_SECRET" (@None string);
         [env_step env "JWT_REFRESH_EXPIRES_IN" (Some "30d")
         |] |] |] |] |] |] |] |].

(** [Env] loads exactly when [getEnv] accepts each of the nine entries:
    no variable is set to the empty string, and [JWT_SECRET] and
    [JWT_REFRESH_SECRET], which have no default, are set. *)
Theorem loadEnv_succeeds_iff (env : gmap string string) :
  (exists E, (loadEnv env).2 = Returned E)
  <-> forallb (entry_ok env) env_entries = true.
Proof.
  unfold loadEnv, env_entries. cbn [forallb].
  env_steps env; cbn [fst snd andb];
    (split; [intros [E HE]; first [reflexivity | discriminate HE]
            | intros H; first [discriminate H | eexists; reflexivity]]).
Qed.

Lemma loadEnv_succeeds_iff_witness :
  exists E, (loadEnv secrets_only_env).2 = Returned E.
Proof. apply (proj2 (loadEnv_succeeds_iff secrets_only_env)). reflexivity. Defined.

(** [Env] fails on the first entry, in reading order, that [getEnv]
    rejects, and the error names that variable. *)
Theorem loadEnv_first_missing
    (env : gmap string string) (k : string) (d : option string) :
  find (fun entry => negb (entry_ok env entry)) env_entries = Some (k, d) ->
  (loadEnv env).2 = Threw ("Missing env variable: " ++ k).
Proof.
  unfold loadEnv, env_entries. cbn [find].
  env_steps env; cbn [fst snd negb]; intros H;
    first [discriminate H | by injection H as <- <-].
Qed.

Lemma loadEnv_first_missing_witness :
  (loadEnv incomplete_production_env).2
    = Threw "Missing env variable: JWT_REFRESH_SECRET".
Proof.
  apply (loadEnv_first_missing incomplete_production_env
           "JWT_REFRESH_SECRET" None).
  reflexivity.
Defined.

Lemma chosen_value_default (env : gmap string string) (k d v : string) :
  chosen_value env k (Some d) = Some v -> v = default d (env !! k).
Proof. unfold chosen_value. destruct (env !! k); simpl; congruence. Qed.

Lemma chosen_value_required (env : gmap string string) (k v : string) :
  chosen_value env k None = Some v -> env !! k = Some v.
Proof. unfold chosen_value. by destruct (env !! k). Qed.

(** A loaded [Env] holds, for each key with a default, the variable's
    value or else the default, and for the two secrets the variable's
    value; no entry is the empty string. *)
Theorem loadEnv_values (env : gmap string string) (log : list string)
    (E : EnvConfig) :
  loadEnv env = (log, Returned E) ->
  cfg_PORT E = default "8000" (env !! "PORT")
  /\ cfg_NODE_ENV E = default "development" (env !! "NODE_ENV")
  /\ cfg_BASE_PATH E = default "/api/v1" (env !! "BASE_PATH")
  /\ cfg_FRONTEND_ORIGIN E
       = default "http://localhost:3000" (env !! "FRONTEND_ORIGIN")
  /\ cfg_MONGO_URI E
       = default "mongodb://localhost:27017/database_name" (env !! "MONGO_URI")
  /\ env !! "JWT_SECRET" = Some (jwt_SECRET (cfg_JWT E))
  /\ jwt_EXPIRES_IN (cfg_JWT E) = default "15m" (env !! "JWT_EXPIRES_IN")
  /\ env !! "JWT_REFRESH_SECRET" = Some (jwt_REFRESH_SECRET (cfg_JWT E))
  /\ jwt_REFRESH_EXPIRES_IN (cfg_JWT E)
       = default "30d" (env !! "JWT_REFRESH_EXPIRES_IN")
  /\ Forall (fun v => v <> "") (env_values E).
Proof.
  unfold loadEnv. env_steps env; cbn [fst snd]; intros H;
    try discriminate H.
  injection H as _ <-.
  cbn [cfg_PORT cfg_NODE_ENV cfg_BASE_PATH cfg_FRONTEND_ORIGIN cfg_MONGO_URI
       cfg_JWT jwt_SECRET jwt_EXPIRES_IN jwt_REFRESH_SECRET
       jwt_REFRESH_EXPIRES_IN env_values].
  repeat match goal with
         | H : chosen_value _ _ (Some _) = Some _ |- _ =>
             apply chosen_value_default in H
         | H : chosen_value _ _ None = Some _ |- _ =>
             apply chosen_value_required in H
         end.
  repeat split; try assumption.
  repeat constructor; assumption.
Qed.

Lemma loadEnv_values_witness :
  exists E, (loadEnv secrets_only_env).2 = Returned E
            /\ cfg_PORT E = "8000" /\ cfg_NODE_ENV E = "development"
            /\ jwt_SECRET (cfg_JWT E) = "s3cret".
Proof.
  destruct (loadEnv secrets_only_env) as [log [E | m]] eqn:HE;
    [|discriminate HE].
  exists E. split; [reflexivity|].
  destruct (loadEnv_values secrets_only_env log E HE)
    as (Hp & Hn & _ & _ & _ & Hs & _).
  split; [exact Hp|]. split; [exact Hn|].
  assert (Hk : secrets_only_env !! "JWT_SECRET" = Some "s3cret")
    by reflexivity.
  congruence.
Defined.

(** Unless [process.env.NODE_ENV] is [production], loading [Env] writes
    one console line per variable, value included, the two JWT secrets
    among them; in production it writes nothing, whether it loads or
    fails. *)
Theorem loadEnv_console (env : gmap string string) :
  (env !! "NODE_ENV" = Some "production" -> (loadEnv env).1 = [])
  /\ (env !! "NODE_ENV" <> Some "production" ->
      forall E, (loadEnv env).2 = Returned E ->
        (loadEnv env).1 =
          ["Env PORT: " ++ cfg_PORT E;
           "Env NODE_ENV: " ++ cfg_NODE_ENV E;
           "Env BASE_PATH: " ++ cfg_BASE_PATH E;
           "Env FRONTEND_ORIGIN: " ++ cfg_FRONTEND_ORIGIN E;
           "Env MONGO_URI: " ++ cfg_MONGO_URI E;
           "Env JWT_SECRET: " ++ jwt_SECRET (cfg_JWT E);
           "Env JWT_EXPIRES_IN: " ++ jwt_EXPIRES_IN (cfg_JWT E);
           "Env JWT_REFRESH_SECRET: " ++ jwt_REFRESH_SECRET (cfg_JWT E);
           "Env JWT_REFRESH_EXPIRES_IN: " ++ jwt_REFRESH_EXPIRES_IN (cfg_JWT E)]).
Proof.
  split.
  - intros Hp. unfold loadEnv.
    env_steps env; cbn [fst snd];
      rewrite ?bool_decide_eq_true_2 by exact Hp; reflexivity.
  - intros Hp E. unfold loadEnv.
    env_steps env; cbn [fst snd]; intros H; try discriminate H.
    injection H as <-.
    rewrite !bool_decide_eq_false_2 by exact Hp.
    repeat match goal with
           | H : chosen_value _ _ _ = Some _ |- _ => rewrite H; clear H
           end.
    reflexivity.
Qed.

Lemma loadEnv_console_witness :
  (loadEnv incomplete_production_env).1 = []
  /\ "Env JWT_SECRET: s3cret" ∈ (loadEnv secrets_only_env).1.
Proof.
  split.
  - apply (proj1 (loadEnv_console incomplete_production_env)). reflexivity.
  - destruct (loadEnv secrets_only_env) as [log [E | m]] eqn:HE;
      [|discriminate HE].
    pose proof (proj2 (loadEnv_console secrets_only_env)) as Hlog.
    rewrite HE in Hlog. cbn [fst snd] in *.
    rewrite (Hlog ltac:(discriminate) E eq_refl).
    vm_compute in HE. injection HE as _ <-. cbn.
    do 5 apply list_elem_of_further. apply list_elem_of_here.
Defined.

(** ** Env and errorHandler together *)

(** With [NODE_ENV] unset, [Env.NODE_ENV] is [development], so the
    handler running under the loaded [Env] puts the stack of every fault
    that has one into the reply; with [NODE_ENV] set to [production] the
    details are the cascade's alone. *)
Theorem unset_NODE_ENV_exposes_stacks
    (env : gmap string string) (log : list string) (E : EnvConfig)
    (now : string) (e : ErrorObject) (s : string)
    (req : Request) (res : Response) :
  loadEnv env = (log, Returned E) ->
  stack e = Some s ->
  s <> "" ->
  exists b,
    res_body (errorHandler (cfg_NODE_ENV E) now (ThrownError e) req res) = Some b
    /\ (env !! "NODE_ENV" = None ->
        get_prop "stack" (spread (resp_details b)) = Some (JStr s))
    /\ (env !! "NODE_ENV" = Some "production" ->
        resp_details b = c_details (classify (ThrownError e))).
Proof.
  intros HE Hs Hne.
  destruct (loadEnv_values env log E HE) as (_ & Hn & _).
  rewrite Hn. unfold errorHandler, stack_of. rewrite Hs.
  destruct (String.eqb_spec s "") as [|_]; [contradiction|].
  destruct (env !! "NODE_ENV") as [v|] eqn:Hv; cbn [default from_option id].
  - destruct (String.eqb_spec v "development") as [-> | Hd];
      eexists; (split; [reflexivity|]); split; try discriminate.
    intros _. reflexivity.
  - eexists. split; [reflexivity|]. split; [|discriminate].
    intros _. cbn. apply get_set_prop_same.
Qed.

Lemma unset_NODE_ENV_exposes_stacks_witness :
  exists E b,
    (loadEnv secrets_only_env).2 = Returned E
    /\ res_body (errorHandler (cfg_NODE_ENV E) "2024-01-15T10:30:00.000Z"
                   (ThrownError node_connection_refused) users_request
                   fresh_response) = Some b
    /\ get_prop "stack" (spread (resp_details b))
         = Some (JStr "Error: connect ECONNREFUSED 127.0.0.1:27017").
Proof.
  destruct (loadEnv secrets_only_env) as [log [E | m]] eqn:HE;
    [|discriminate HE].
  destruct (unset_NODE_ENV_exposes_stacks secrets_only_env log E
              "2024-01-15T10:30:00.000Z" node_connection_refused
              "Error: connect ECONNREFUSED 127.0.0.1:27017"
              users_request fresh_response HE eq_refl)
    as (b & Hb & Hunset & _); [discriminate|].
  exists E, b. split; [reflexivity|]. split; [exact Hb|].
  apply Hunset. reflexivity.
Defined.

(** ** asyncHandler, further *)

(** With Express's [next], the wrapper never ends in a throw (the promise
    it returns never rejects), never touches the response the controller
    left, and forwards nothing while the controller's promise is
    unsettled. *)
Theorem asyncHandler_never_rejects
    (controller : AsyncController) (req : Request) (w : World) :
  (forall e, (asyncHandler controller req express_next w).2 <> Raise e)
  /\ w_res (asyncHandler controller req express_next w).1
       = w_res (controller req express_next w).1
  /\ ((controller req express_next w).2 = Done Pending ->
      asyncHandler controller req express_next w
        = ((controller req express_next w).1, Hang)).
Proof.
  rewrite asyncHandler_run.
  destruct (controller req express_next w) as [w' [[| e |] | e |]];
    cbn; repeat split; try discriminate; try done.
Qed.

Lemma asyncHandler_never_rejects_witness :
  asyncHandler (fun _ _ w => (w, Done Pending)) health_request express_next
    idle_world = (idle_world, Hang).
Proof.
  apply (asyncHandler_never_rejects (fun _ _ w => (w, Done Pending))
           health_request idle_world).
  reflexivity.
Defined.

(** Wrapping twice is wrapping once: the inner wrapper has already
    forwarded the fault and its promise fulfils, so the outer one forwards
    nothing more. *)
Theorem asyncHandler_wrapped_twice
    (controller : AsyncController) (req : Request) (w : World) :
  asyncHandler (wrapped controller) req express_next w
    = asyncHandler controller req express_next w.
Proof.
  rewrite (asyncHandler_run (wrapped controller)).
  unfold wrapped, async_call. rewrite asyncHandler_run.
  destruct (controller req express_next w) as [w' [[| e |] | e |]];
    reflexivity.
Qed.

(** ** notFoundHandler and NotFoundException *)

(** Outside development, the reply of [notFoundHandler] is the reply
    [errorHandler] gives to a [NotFoundException] with the same message,
    except for the [errorName]: [NotFoundError] against
    [NotFoundException]. *)
Theorem notFoundHandler_matches_NotFoundException
    (NODE_ENV now created trace : string) (req : Request) (res : Response) :
  NODE_ENV <> "development" ->
  let msg := "The requested endpoint " ++ method req ++ " " ++ originalUrl req
             ++ " was not found" in
  exists b b',
    notFoundHandler now req res
      = {| res_statusCode := 404; res_body := Some b |}
    /\ errorHandler NODE_ENV now
         (ThrownError (NotFoundException created trace (Some msg) None JUndefined))
         req res
       = {| res_statusCode := 404; res_body := Some b' |}
    /\ resp_errorName b = "NotFoundError"
    /\ resp_errorName b' = "NotFoundException"
    /\ b' = {| resp_errorName := "NotFoundException";
               resp_errorCode := resp_errorCode b;
               resp_httpStatus := resp_httpStatus b;
               resp_message := resp_message b;
               resp_details := resp_details b;
               resp_timestamp := resp_timestamp b;
               resp_path := resp_path b |}.
Proof.
  intros Hne msg. rewrite errorHandler_body_plain by (by left).
  eexists. eexists. split; [reflexivity|]. split; [reflexivity|].
  repeat split.
Qed.

Lemma notFoundHandler_matches_NotFoundException_witness :
  res_statusCode
    (errorHandler "production" "2024-01-15T10:30:00.000Z"
       (ThrownError
          (NotFoundException "2024-01-15T10:29:59.000Z" "NotFoundException"
             (Some "The requested endpoint POST /api/v1/users was not found")
             None JUndefined))
       users_request fresh_response)
  = res_statusCode
      (notFoundHandler "2024-01-15T10:30:00.000Z" users_request fresh_response).
Proof.
  destruct (notFoundHandler_matches_NotFoundException "production"
              "2024-01-15T10:30:00.000Z" "2024-01-15T10:29:59.000Z"
              "NotFoundException" users_request fresh_response)
    as (b & b' & Hn & He & _); [discriminate|].
  cbn zeta in He. cbn [method originalUrl users_request] in He.
  change ("The requested endpoint " ++ "POST" ++ " " ++ "/api/v1/users"
          ++ " was not found")
    with "The requested endpoint POST /api/v1/users was not found" in He.
  by rewrite Hn, He.
Defined.

(** ** connectDatabase *)

(** However the connection fails, [connectDatabase] logs the cause and
    rejects with a new plain [Error] "Error connecting to MongoDB": the
    cause itself is not passed on, so [errorHandler] would answer the
    rejection 500 [SRV_500] with that message, even for a cause it would
    have answered otherwise. *)
Theorem connectDatabase_replaces_the_cause
    (mongoose_connect : string -> CallResult) (MONGO_URI trace : string)
    (cause : Thrown) :
  mongoose_connect MONGO_URI = Promises (Rejected cause)
  \/ mongoose_connect MONGO_URI = ThrowsNow cause ->
  exists e,
    connectDatabase mongoose_connect MONGO_URI trace
      = ([ConsoleError "Error connecting to MongoDB" cause],
         Rejected (ThrownError e))
    /\ message e = "Error connecting to MongoDB"
    /\ fires RuleUnknown (ThrownError e)
    /\ forall NODE_ENV now req res,
         NODE_ENV <> "development" ->
         errorHandler NODE_ENV now (ThrownError e) req res =
           {| res_statusCode := 500;
              res_body := Some
                {| resp_errorName := "Error";
                   resp_errorCode := "SRV_500";
                   resp_httpStatus := 500;
                   resp_message := "Error connecting to MongoDB";
                   resp_details := JUndefined;
                   resp_timestamp := now;
                   resp_path := originalUrl req |} |}.
Proof.
  intros H. exists (new_Error trace "Error connecting to MongoDB").
  split; [unfold connectDatabase; by destruct H as [-> | ->]|].
  split; [reflexivity|]. split; [fires_by_computation|].
  intros NODE_ENV now req res Hne.
  by rewrite errorHandler_body_plain by (by left).
Qed.

Lemma connectDatabase_replaces_the_cause_witness :
  (connectDatabase
     (fun _ => Promises (Rejected (ThrownError named_connection_refused)))
     "mongodb://localhost:27017/database_name" "Error at connectDatabase").2
  = Rejected (ThrownError (new_Error "Error at connectDatabase"
                             "Error connecting to MongoDB"))
  /\ res_statusCode
       (errorHandler "production" "2024-01-15T10:30:00.000Z"
          (ThrownError named_connection_refused) users_request fresh_response)
     = 503.
Proof.
  split; [|reflexivity].
  destruct (connectDatabase_replaces_the_cause
              (fun _ => Promises (Rejected (ThrownError named_connection_refused)))
              "mongodb://localhost:27017/database_name"
              "Error at connectDatabase"
              (ThrownError named_connection_refused))
    as (e & Hc & _); [by left|].
  rewrite Hc. injection Hc as <-. reflexivity.
Defined.

(** ** Unhandled rejections *)

Lemma emit_rejection_once (NODE_ENV : string) (p : Process) :
  listeners_of unhandledRejection p = [RejectionListener] ->
  exited p = None ->
  listeners (emit NODE_ENV unhandledRejection p) = listeners p
  /\ exited (emit NODE_ENV unhandledRejection p) = None
  /\ timers (emit NODE_ENV unhandledRejection p)
       = (timers p ++ if String.eqb NODE_ENV "production" then [1000] else [])%list.
Proof.
  intros Hl He. unfold emit. rewrite Hl. cbn [run_listeners]. rewrite He.
  unfold run_listener, listener_body.
  destruct (String.eqb NODE_ENV "production"); cbn; rewrite ?app_nil_r; done.
Qed.

(** After the one registration at startup, any number of unhandled
    rejections leaves the process running: outside production nothing is
    scheduled at all; in production each rejection schedules one exit
    after 1000 ms, and the process ends with status 1 when the first timer
    expires. *)
Theorem unhandled_rejections_after_startup (NODE_ENV : string) (k : nat) :
  let p := Nat.iter k (emit NODE_ENV unhandledRejection) (initialized 1) in
  exited p = None
  /\ timers p = (if String.eqb NODE_ENV "production" then replicate k 1000 else [])
  /\ exited (timer_expires p)
       = (if String.eqb NODE_ENV "production"
          then match k with O => None | S _ => Some 1 end
          else None).
Proof.
  cbn zeta.
  assert (H : listeners (Nat.iter k (emit NODE_ENV unhandledRejection)
                           (initialized 1)) = listeners (initialized 1)
              /\ exited (Nat.iter k (emit NODE_ENV unhandledRejection)
                           (initialized 1)) = None
              /\ timers (Nat.iter k (emit NODE_ENV unhandledRejection)
                           (initialized 1))
                 = (if String.eqb NODE_ENV "production"
                    then replicate k 1000 else [])).
  { induction k as [|k (IHl & IHe & IHt)];
      [by destruct (String.eqb NODE_ENV "production")|].
    rewrite !Nat.iter_succ.
    destruct (emit_rejection_once NODE_ENV
                (Nat.iter k (emit NODE_ENV unhandledRejection) (initialized 1)))
      as (Hl & He & Ht); [unfold listeners_of; by rewrite IHl | exact IHe |].
    rewrite Hl, He, Ht, IHt. repeat split; try assumption.
    destruct (String.eqb NODE_ENV "production"); [|reflexivity].
    by rewrite replicate_S_end. }
  destruct H as (_ & He & Ht). split; [exact He|]. split; [exact Ht|].
  unfold timer_expires. rewrite He, Ht.
  destruct (String.eqb NODE_ENV "production"); [|exact He].
  destruct k; [exact He | reflexivity].
Qed.

(** Startup with a database that cannot be reached: the callback of
    [app.listen] rejects, nobody handles the rejection, and the process,
    whose handlers were registered once, exits with status 1 when the
    timer expires if [NODE_ENV] is [production] and otherwise keeps
    running; "Server running" is not logged. *)
Theorem startup_without_database
    (NODE_ENV : string) (mongoose_connect : string -> CallResult)
    (E : EnvConfig) (trace : string) (cause : Thrown) :
  mongoose_connect (cfg_MONGO_URI E) = Promises (Rejected cause) ->
  let run := listen_callback mongoose_connect E trace in
  let p := unawaited NODE_ENV run.2 (initialized 1) in
  run.1 = [ConsoleError "Error connecting to MongoDB" cause]
  /\ exited p = None
  /\ exited (timer_expires p)
       = (if String.eqb NODE_ENV "production" then Some 1 else None).
Proof.
  intros Hc. cbn zeta. unfold listen_callback, connectDatabase. rewrite Hc.
  cbn [fst snd unawaited].
  destruct (unhandled_rejections_after_startup NODE_ENV 1) as (He & _ & Ht).
  rewrite !Nat.iter_succ in He, Ht. cbn [Nat.iter nat_rect] in He, Ht.
  by rewrite He, Ht.
Qed.

Lemma startup_without_database_witness :
  exited (timer_expires
            (unawaited "production"
               (listen_callback
                  (fun _ => Promises (Rejected (ThrownError node_connection_refused)))
                  {| cfg_PORT := "8000"; cfg_NODE_ENV := "production";
                     cfg_BASE_PATH := "/api/v1";
                     cfg_FRONTEND_ORIGIN := "http://localhost:3000";
                     cfg_MONGO_URI := "mongodb://localhost:27017/database_name";
                     cfg_JWT := {| jwt_SECRET := "s3cret";
                                   jwt_EXPIRES_IN := "15m";
                                   jwt_REFRESH_SECRET := "r3fresh";
                                   jwt_REFRESH_EXPIRES_IN := "30d" |} |}
                  "Error at connectDatabase").2
               (initialized 1)))
  = Some 1.
Proof.
  apply (startup_without_database "production"
           (fun _ => Promises (Rejected (ThrownError node_connection_refused)))
           _ "Error at connectDatabase" (ThrownError node_connection_refused)).
  reflexivity.
Defined.

(** ** The examples *)


